(** * Fall detector: the loop state machine of the optimized sketch

    A shallow embedding of the "Optimized Loop Fall Detector" sketch
    (impact detection followed by a five second sustained-motion check
    and a long-press alarm reset) and the properties of its decision
    engine.

    Target data model.  The sketch is written for the Arduino Uno
    (ATmega328P, avr-gcc), as its header comment and the README say.
    There [unsigned long] is 32 bits wide, [int] is 16 bits wide and
    [float] is IEEE-754 binary32.  Integers are embedded as [Z] with the
    wrap-around written out; floats are embedded with the executable
    IEEE-754 specification of the standard library at precision 24. *)

From Stdlib Require Import ZArith Lia Bool List.
From Stdlib Require Import Floats.SpecFloat.
From Stdlib Require Import Strings.Byte.
From stdpp Require Import base list strings.

Local Open Scope Z_scope.

(** ** Machine arithmetic *)

(** [unsigned long]: arithmetic modulo 2^32. *)
Definition ULONG_WIDTH : Z := 32.
Definition ulong (z : Z) : Z := z mod 2 ^ ULONG_WIDTH.

(** Unsigned subtraction [a - b] on [unsigned long]. *)
Definition ulong_sub (a b : Z) : Z := ulong (a - b).

(** [int]: 16 bits, two's complement.  Converting an out-of-range value
    to [int] keeps the low 16 bits (what avr-gcc does). *)
Definition INT_WIDTH : Z := 16.
Definition to_int (z : Z) : Z :=
  (z + 2 ^ (INT_WIDTH - 1)) mod 2 ^ INT_WIDTH - 2 ^ (INT_WIDTH - 1).

(** ** binary32 floats *)

Module Float32.

Definition float : Type := spec_float.

Definition prec : Z := 24.
Definition emax : Z := 128.

Definition zero : float := S754_zero false.
Definition of_Z (z : Z) : float := binary_normalize prec emax z 0 false.
Definition mul : float -> float -> float := SFmul prec emax.
Definition add : float -> float -> float := SFadd prec emax.
Definition div : float -> float -> float := SFdiv prec emax.

(** [gt a b] is the C comparison [a > b]; it is false when either
    side is a NaN. *)
Definition gt (a b : float) : bool := SFltb b a.

(** [le a b] is the comparison [a <= b], false on a NaN as well. *)
Definition le (a b : float) : bool := SFleb a b.

End Float32.

Import Float32.

(** ** Configuration constants *)

(** [2.0f] *)
Definition IMPACT_THRESHOLD_G : float := of_Z 2.
(** [1.3f]: the binary32 nearest to 13/10. *)
Definition STABILITY_THRESHOLD_G : float := div (of_Z 13) (of_Z 10).
Definition JUDGE_WINDOW_MS : Z := 5000.
Definition LONG_PRESS_MS : Z := 2000.
Definition REQUIRED_ACTIVE_SECONDS : Z := 3.

Definition IMPACT_SQ : float := mul IMPACT_THRESHOLD_G IMPACT_THRESHOLD_G.
Definition STABILITY_SQ : float :=
  mul STABILITY_THRESHOLD_G STABILITY_THRESHOLD_G.

(** ** State *)

Inductive SystemState : Set :=
| STATE_MONITORING
| STATE_JUDGING
| STATE_ALARM.

#[global] Instance SystemState_eq_dec : EqDecision SystemState.
Proof. solve_decision. Defined.

(** Level of the active-low button pin: [LOW] is pressed. *)
Inductive level : Set := LOW | HIGH.

#[global] Instance level_eq_dec : EqDecision level.
Proof. solve_decision. Defined.

(** The global variables that the state machine and the button logic
    read and write.  [lastDisplayTime] and [globalAMag] belong to the
    throttled display refresh, which only reads the variables below, and
    are left out. *)
Record state : Type := mkState {
  currentState : SystemState;
  impactTime : Z;
  btnWasLow : bool;
  btnPressStart : Z;
  btnHeld : bool;
  motionHistory : list bool
}.

Definition set_currentState (c : SystemState) (s : state) : state :=
  mkState c (impactTime s) (btnWasLow s) (btnPressStart s) (btnHeld s)
          (motionHistory s).
Definition set_impactTime (t : Z) (s : state) : state :=
  mkState (currentState s) t (btnWasLow s) (btnPressStart s) (btnHeld s)
          (motionHistory s).
Definition set_btnWasLow (b : bool) (s : state) : state :=
  mkState (currentState s) (impactTime s) b (btnPressStart s) (btnHeld s)
          (motionHistory s).
Definition set_btnPressStart (t : Z) (s : state) : state :=
  mkState (currentState s) (impactTime s) (btnWasLow s) t (btnHeld s)
          (motionHistory s).
Definition set_btnHeld (b : bool) (s : state) : state :=
  mkState (currentState s) (impactTime s) (btnWasLow s) (btnPressStart s) b
          (motionHistory s).
Definition set_motionHistory (m : list bool) (s : state) : state :=
  mkState (currentState s) (impactTime s) (btnWasLow s) (btnPressStart s)
          (btnHeld s) m.

(** The variables as the C++ start-up code leaves them: the initialisers
    of the sketch, and zero ([false]) for the uninitialised global array. *)
Definition WINDOW_SLOTS : nat := 5.

Definition initial : state :=
  mkState STATE_MONITORING 0 false 0 false (replicate WINDOW_SLOTS false).

(** ** The motion window *)

(** [motionHistory[i] = b].  The array has five slots and C++ does not
    check the index.  A store whose index is outside the array is
    undefined in C++: this definition is the store for the indices 0 to
    4 only.  For another index it leaves the slots alone, every store is
    logged (see [classify_log]), and the statements below about an
    iteration that could make such a store carry the bound
    [NARROWING_FREE_MS], under which the index is never negative. *)
Definition array_store (i : Z) (b : bool) (m : list bool) : list bool :=
  if 0 <=? i then <[Z.to_nat i := b]> m else m.

(** [for (int i = 0; i < 5; i++) motionHistory[i] = false;] *)
Definition resetHistory (m : list bool) : list bool :=
  fold_left (fun acc i => array_store (Z.of_nat i) false acc)
            (seq 0 WINDOW_SLOTS) m.

(** The counting loop of the finalisation:
    [for (int i = 0; i < 5; i++) if (motionHistory[i]) activeCount++;] *)
Definition countActive (m : list bool) : Z :=
  fold_left (fun activeCount i =>
               if nth i m false then activeCount + 1 else activeCount)
            (seq 0 WINDOW_SLOTS) 0.

(** ** The state machine (step 2 of [loop]) *)

Definition timeSinceImpact (now : Z) (s : state) : Z :=
  ulong_sub now (impactTime s).

(** [int secondIndex = timeSinceImpact / 1000;] *)
Definition secondIndex (now : Z) (s : state) : Z :=
  to_int (timeSinceImpact now s / 1000).

(** The [switch (currentState)] statement.  The result is the state
    after the statement together with the indices of [motionHistory]
    that were stored to, in program order. *)
Definition classify_log (now : Z) (aMagSq : float) (s : state)
  : state * list Z :=
  match currentState s with
  | STATE_MONITORING =>
      if gt aMagSq IMPACT_SQ then
        let s1 := set_impactTime now (set_currentState STATE_JUDGING s) in
        (set_motionHistory (resetHistory (motionHistory s1)) s1,
         map Z.of_nat (seq 0 WINDOW_SLOTS))
      else (s, [])
  | STATE_JUDGING =>
      let elapsed := timeSinceImpact now s in
      let idx := secondIndex now s in
      (* A. Record motion *)
      let '(s1, log) :=
        if (idx <? 5) && gt aMagSq STABILITY_SQ
        then (set_motionHistory (array_store idx true (motionHistory s)) s,
              [idx])
        else (s, []) in
      (* B. Check timeout *)
      if JUDGE_WINDOW_MS <=? elapsed then
        let activeCount := countActive (motionHistory s1) in
        if REQUIRED_ACTIVE_SECONDS <=? activeCount
        then (set_currentState STATE_MONITORING s1, log)
        else (set_currentState STATE_ALARM s1, log)
      else (s1, log)
  | STATE_ALARM => (s, [])
  end.

Definition classify (now : Z) (aMagSq : float) (s : state) : state :=
  fst (classify_log now aMagSq s).

(** Indices of [motionHistory] stored to by one pass of the switch. *)
Definition stores (now : Z) (aMagSq : float) (s : state) : list Z :=
  snd (classify_log now aMagSq s).

(** ** The button logic (step 3 of [loop]) *)

Definition buttonLogic (now : Z) (btnState : level) (s : state) : state :=
  if decide (currentState s = STATE_ALARM) then
    if decide (btnState = LOW) then
      let s1 :=
        if negb (btnWasLow s) then
          set_btnPressStart now (set_btnWasLow true s)
        else if LONG_PRESS_MS <=? ulong_sub now (btnPressStart s) then
          set_btnWasLow false (set_currentState STATE_MONITORING s)
        else s in
      set_btnHeld true s1
    else
      set_btnHeld false (set_btnWasLow false s)
  else
    set_btnHeld (bool_decide (btnState = LOW)) (set_btnWasLow false s).

(** ** One iteration of [loop] *)

(** What one iteration reads: the clock, the sensor and the button. *)
Record input : Type := mkInput {
  millis : Z;
  aMagSq : float;
  btnState : level
}.

Definition loop (i : input) (s : state) : state :=
  buttonLogic (millis i) (btnState i) (classify (millis i) (aMagSq i) s).

(** Successive iterations, first input first. *)
Definition run (inputs : list input) (s : state) : state :=
  fold_left (fun acc i => loop i acc) inputs s.

(** States the sketch can be in between two iterations. *)
Inductive reachable : state -> Prop :=
| reachable_initial : reachable initial
| reachable_loop i s : reachable s -> reachable (loop i s).

(** ** The sensor read *)

(** The receive buffer of the I2C driver after [Wire.requestFrom]:
    [Wire.available()] is the number of bytes in it and [Wire.read()]
    takes the first one. *)
Definition Wire_available (rx : list byte) : Z := Z.of_nat (length rx).

Definition byte_val (b : byte) : Z := Z.of_N (Strings.Byte.to_N b).

(** [int16_t v = (Wire.read() << 8) | Wire.read();] with the high byte
    read first. *)
Definition int16_of_bytes (hi lo : byte) : Z :=
  to_int (Z.lor (Z.shiftl (byte_val hi) 8) (byte_val lo)).

Definition SCALE : float := of_Z 16384.

Definition readAccelSqMagnitude (rx : list byte) : float :=
  if Wire_available rx <? 6 then zero
  else
    match rx with
    | xh :: xl :: yh :: yl :: zh :: zl :: _ =>
        let ax := div (of_Z (int16_of_bytes xh xl)) SCALE in
        let ay := div (of_Z (int16_of_bytes yh yl)) SCALE in
        let az := div (of_Z (int16_of_bytes zh zl)) SCALE in
        add (add (mul ax ax) (mul ay ay)) (mul az az)
    | _ => zero
    end.

(** One iteration of [loop] with the sensor read in it. *)
Definition loop_sensor (now : Z) (rx : list byte) (btn : level) (s : state)
  : state :=
  loop (mkInput now (readAccelSqMagnitude rx) btn) s.

(** ** The button debouncer of the specification *)

(** Follows the specification's words (its section on the
    ButtonDebouncer), for comparison with [buttonLogic]: on the press
    edge [update] records the press start and returns 0; while held it
    returns [nowMs - pressStartTime]; on release it resets to 0 and
    forgets the press start. *)
Record ButtonHoldState : Type := mkHold {
  isPressed : bool;
  pressStartTime : Z
}.

Definition spec_update (isPressedNow : bool) (nowMs : Z) (d : ButtonHoldState)
  : ButtonHoldState * Z :=
  if isPressedNow then
    if isPressed d then (d, ulong_sub nowMs (pressStartTime d))
    else (mkHold true nowMs, 0)
  else (mkHold false 0, 0).

(** The hold duration the specification's debouncer returns at the last
    of the given iterations, started released. *)
Definition spec_heldDurationMs (inputs : list input) : Z :=
  snd (fold_left
         (fun acc i =>
            spec_update (bool_decide (btnState i = LOW)) (millis i) (fst acc))
         inputs (mkHold false 0, 0)).

(** "Outside the alarm state the hold duration is still computed", read
    on the sketch: some function of the sketch's variables and of the
    clock reading yields, after every iteration of a run that stays in
    Monitoring, the hold duration of the specification's debouncer. *)
Definition hold_duration_available (duration : Z -> state -> Z) : Prop :=
  forall (inputs : list input) (x : input),
    Forall (fun i => gt (aMagSq i) IMPACT_SQ = false) (inputs ++ [x]) ->
    duration (millis x) (run (inputs ++ [x]) initial)
    = spec_heldDurationMs (inputs ++ [x]).

(** ** Auxiliary definitions for the statements *)

(** The elapsed times whose count of whole seconds fits the 16-bit
    [int secondIndex]: below 32768 s the narrowing changes nothing,
    from there on the index can come out negative. *)
Definition NARROWING_FREE_MS : Z := 2 ^ (INT_WIDTH - 1) * 1000.

(** The clock reading at instant [T], in milliseconds since start-up:
    [millis()] counts modulo 2^32. *)
Definition clock (T : Z) : Z := ulong T.

(** The array keeps its five slots. *)
Definition window_ok (s : state) : Prop :=
  length (motionHistory s) = WINDOW_SLOTS.

(** The window after the "record motion" part of the judging case. *)
Definition recorded (now : Z) (v : float) (s : state) : list bool :=
  if (secondIndex now s <? 5) && gt v STABILITY_SQ
  then array_store (secondIndex now s) true (motionHistory s)
  else motionHistory s.

(** Sample values for the scenarios: 5.0 is above the impact threshold,
    2.0 is between the two thresholds. *)
Definition sample_impact : float := of_Z 5.
Definition sample_motion : float := of_Z 2.

(** An alarm that has been raised and not yet answered. *)
Definition alarmed : state :=
  mkState STATE_ALARM 1000 false 0 false [false; true; false; false; false].

Ltac step_unfold :=
  unfold loop, classify, stores, classify_log, buttonLogic,
    set_currentState, set_impactTime, set_btnWasLow, set_btnPressStart,
    set_btnHeld, set_motionHistory in *; simpl in *.

(** ** The sensor read, by axis *)

(** One axis of [readAccelSqMagnitude]: the raw count scaled to g and
    squared, [(raw / SCALE) * (raw / SCALE)]. *)
Definition axisSq (raw : Z) : float :=
  let a := div (of_Z raw) SCALE in mul a a.

(** [ax * ax + ay * ay + az * az] for the three raw counts. *)
Definition sqMagnitude (ax_raw ay_raw az_raw : Z) : float :=
  add (add (axisSq ax_raw) (axisSq ay_raw)) (axisSq az_raw).

(** A float that is not a NaN and carries the sign bit [sx]. *)
Definition has_sign (sx : bool) (f : float) : bool :=
  match f with
  | S754_zero s | S754_infinity s | S754_finite s _ _ => Bool.eqb s sx
  | S754_nan => false
  end.

(** Not a NaN and not negative. *)
Definition sign_clear (f : float) : bool := has_sign false f.

Definition is_nan (f : float) : bool :=
  match f with S754_nan => true | _ => false end.

(** [forall_below n lo P]: [P] holds on the 2^n integers from [lo]
    on, checked by halving. *)
Fixpoint forall_below (n : nat) (lo : Z) (P : Z -> bool) : bool :=
  match n with
  | O => P lo
  | S n' => forall_below n' lo P && forall_below n' (lo + 2 ^ Z.of_nat n') P
  end.

(** ** The state diagram *)

(** The edges of the state machine with the conditions under which an
    iteration with input [i] takes them from the variables [s]. *)
Inductive transition (i : input) (s : state)
  : SystemState -> SystemState -> Prop :=
| tr_quiet :
    gt (aMagSq i) IMPACT_SQ = false ->
    transition i s STATE_MONITORING STATE_MONITORING
| tr_impact :
    gt (aMagSq i) IMPACT_SQ = true ->
    transition i s STATE_MONITORING STATE_JUDGING
| tr_window_open :
    timeSinceImpact (millis i) s < JUDGE_WINDOW_MS ->
    transition i s STATE_JUDGING STATE_JUDGING
| tr_false_alarm :
    JUDGE_WINDOW_MS <= timeSinceImpact (millis i) s ->
    REQUIRED_ACTIVE_SECONDS
      <= countActive (recorded (millis i) (aMagSq i) s) ->
    transition i s STATE_JUDGING STATE_MONITORING
| tr_fall :
    JUDGE_WINDOW_MS <= timeSinceImpact (millis i) s ->
    countActive (recorded (millis i) (aMagSq i) s)
      < REQUIRED_ACTIVE_SECONDS ->
    transition i s STATE_JUDGING STATE_ALARM
| tr_alarm_kept :
    btnState i = HIGH \/ btnWasLow s = false \/
    ulong_sub (millis i) (btnPressStart s) < LONG_PRESS_MS ->
    transition i s STATE_ALARM STATE_ALARM
| tr_cancel :
    btnState i = LOW -> btnWasLow s = true ->
    LONG_PRESS_MS <= ulong_sub (millis i) (btnPressStart s) ->
    transition i s STATE_ALARM STATE_MONITORING.

(** ** Hardware output (step 4 of [loop]) *)

(** What the iteration drives: the LED pin and the buzzer, [None] for
    [noTone] and [Some f] for [tone(PIN_BUZZER, f)]. *)
Record outputs : Type := mkOutputs {
  led : level;
  buzzer : option Z
}.

Definition driveOutputs (now : Z) (s : state) : outputs :=
  if decide (currentState s = STATE_ALARM) then
    if (now / 300) mod 2 =? 0
    then mkOutputs HIGH (Some 2000)
    else mkOutputs LOW (Some 1000)
  else mkOutputs LOW None.

(** ** Display refresh (step 5 of [loop]) *)

Definition DISPLAY_INTERVAL : Z := 100.

(** One position of the five-second progress indicator. *)
Definition barCell (m : list bool) (elapsed sec : Z) (i : nat) : string :=
  if Z.of_nat i <? sec then (if nth i m false then "X" else "_")
  else if Z.of_nat i =? sec then (if elapsed mod 500 <? 250 then "?" else " ")
  else ".".

(** The line printed between ["["] and ["]"] in the judging state. *)
Definition progressBar (now : Z) (s : state) : string :=
  let elapsed := ulong_sub now (impactTime s) in
  let sec := to_int (elapsed / 1000) in
  "[" +:+
  fold_left (fun line i => line +:+ barCell (motionHistory s) elapsed sec i)
            (seq 0 WINDOW_SLOTS) ""
  +:+ "]".

(** The state-dependent lines of the screen.  The two lines above them
    (the title and the magnitude, printed by the display library from
    the square root of the sample) are the same in every state. *)
Definition statusLines (now : Z) (s : state) : list string :=
  match currentState s with
  | STATE_MONITORING => ["State: MONITORING"; "Shake to trigger."]
  | STATE_JUDGING => ["State: ANALYZING"; progressBar now s]
  | STATE_ALARM =>
      ["State: ALARM!"; "Hold button 2s"; "to cancel."]
        ++ (if btnHeld s then [""; "Button held..."] else [])
  end.

(** The variables of the sketch with the display timer. *)
Record sketch : Type := mkSketch {
  vars : state;
  lastDisplayTime : Z
}.

Definition initial_sketch : sketch := mkSketch initial 0.

(** What one iteration does to the outside: the pins it drives and,
    when the display is refreshed, the status lines it draws. *)
Record effects : Type := mkEffects {
  pins : outputs;
  screen : option (list string)
}.

(** A whole iteration of [loop]: steps 2 and 3 ([loop] above), then the
    hardware output and the throttled display refresh. *)
Definition loop_all (i : input) (k : sketch) : sketch * effects :=
  let s := loop i (vars k) in
  let out := driveOutputs (millis i) s in
  if DISPLAY_INTERVAL <=? ulong_sub (millis i) (lastDisplayTime k)
  then (mkSketch s (millis i),
        mkEffects out (Some (statusLines (millis i) s)))
  else (mkSketch s (lastDisplayTime k), mkEffects out None).

(** Successive whole iterations with what each one did. *)
Fixpoint run_all (inputs : list input) (k : sketch) : sketch * list effects :=
  match inputs with
  | [] => (k, [])
  | i :: rest =>
      let '(k1, e) := loop_all i k in
      let '(k2, es) := run_all rest k1 in
      (k2, e :: es)
  end.

(** ** The baseline sketch *)

(** The first sketch of the repository (sketch-Loop-V1.ino): the alarm
    is raised by the impact itself, and the same long press resets it. *)
Module Baseline.

(** [1.8f] *)
Definition IMPACT_THRESHOLD_G : float := div (of_Z 18) (of_Z 10).
Definition LONG_PRESS_MS : Z := 2000.

Record state : Type := mkState {
  alarmActive : bool;
  btnWasLow : bool;
  btnPressStart : Z
}.

Definition initial : state := mkState false false 0.

(** Step 2: impact detection on the magnitude. *)
Definition detect (aMag : float) (s : state) : state :=
  if negb (alarmActive s) && gt aMag IMPACT_THRESHOLD_G
  then mkState true (btnWasLow s) (btnPressStart s)
  else s.

(** Step 3: the long press; the second component is the local
    [btnHeld]. *)
Definition buttonLogic (now : Z) (btnState : level) (s : state)
  : state * bool :=
  if alarmActive s then
    if decide (btnState = LOW) then
      (if negb (btnWasLow s) then mkState true true now
       else if LONG_PRESS_MS <=? ulong_sub now (btnPressStart s)
            then mkState false false (btnPressStart s)
            else s,
       true)
    else (mkState true false (btnPressStart s), false)
  else (mkState false false (btnPressStart s), bool_decide (btnState = LOW)).

(** Step 4: LED and buzzer. *)
Definition driveOutputs (s : state) : outputs :=
  if alarmActive s then mkOutputs HIGH (Some 2000) else mkOutputs LOW None.

Definition loop (now : Z) (aMag : float) (btnState : level) (s : state)
  : state * bool * outputs :=
  let '(s1, held) := buttonLogic now btnState (detect aMag s) in
  (s1, held, driveOutputs s1).

End Baseline.

(** The optimized sketch's variables seen as the baseline's: the alarm
    flag is "the state is Alarm". *)
Definition baseline_view (s : state) : Baseline.state :=
  Baseline.mkState (bool_decide (currentState s = STATE_ALARM))
                   (btnWasLow s) (btnPressStart s).

(** * Properties *)

(** ** Machine arithmetic *)

Lemma ulong_range z : 0 <= ulong z < 2 ^ 32.
Proof. unfold ulong, ULONG_WIDTH. apply Z.mod_pos_bound. lia. Qed.

Lemma ulong_small z : 0 <= z < 2 ^ 32 -> ulong z = z.
Proof. intros H. unfold ulong, ULONG_WIDTH. now apply Z.mod_small. Qed.

Lemma to_int_range z : - 2 ^ 15 <= to_int z < 2 ^ 15.
Proof.
  unfold to_int, INT_WIDTH.
  change (2 ^ (16 - 1)) with 32768. change (2 ^ 16) with 65536.
  change (2 ^ 15) with 32768.
  pose proof (Z.mod_pos_bound (z + 32768) 65536). lia.
Qed.

Lemma to_int_small z : - 2 ^ 15 <= z < 2 ^ 15 -> to_int z = z.
Proof.
  unfold to_int, INT_WIDTH.
  change (2 ^ (16 - 1)) with 32768. change (2 ^ 16) with 65536.
  change (2 ^ 15) with 32768.
  intros H. rewrite Z.mod_small; lia.
Qed.

(** Subtraction on readings gives the true distance between two
    instants less than 2^32 ms apart, wrapped or not. *)
Lemma ulong_sub_clock T0 T1 :
  0 <= T1 - T0 < 2 ^ 32 -> ulong_sub (clock T1) (clock T0) = T1 - T0.
Proof.
  intros H. unfold ulong_sub, clock, ulong, ULONG_WIDTH.
  rewrite <- Zminus_mod. now apply Z.mod_small.
Qed.

(** Below five seconds the slot index is the number of whole seconds. *)
Lemma secondIndex_small now s :
  timeSinceImpact now s < 2 ^ 15 * 1000 ->
  secondIndex now s = timeSinceImpact now s / 1000.
Proof.
  intros H. unfold secondIndex. apply to_int_small.
  pose proof (ulong_range (now - impactTime s)) as R.
  fold (ulong_sub now (impactTime s)) in R. fold (timeSinceImpact now s) in R.
  split.
  - transitivity 0; [lia | apply Z.div_pos; lia].
  - apply Z.div_lt_upper_bound; lia.
Qed.

Lemma secondIndex_window now s :
  timeSinceImpact now s < JUDGE_WINDOW_MS -> 0 <= secondIndex now s < 5.
Proof.
  unfold JUDGE_WINDOW_MS. intros H.
  pose proof (ulong_range (now - impactTime s)) as R.
  fold (ulong_sub now (impactTime s)) in R. fold (timeSinceImpact now s) in R.
  rewrite secondIndex_small by lia. split.
  - apply Z.div_pos; lia.
  - apply Z.div_lt_upper_bound; lia.
Qed.

(** After the window and before the narrowing bites, the slot index is
    5 or more. *)
Lemma secondIndex_late now s :
  JUDGE_WINDOW_MS <= timeSinceImpact now s ->
  timeSinceImpact now s < NARROWING_FREE_MS ->
  secondIndex now s = timeSinceImpact now s / 1000 /\
  5 <= secondIndex now s.
Proof.
  unfold JUDGE_WINDOW_MS. change NARROWING_FREE_MS with 32768000.
  intros H1 H2.
  assert (E : secondIndex now s = timeSinceImpact now s / 1000)
    by (apply secondIndex_small; change (2 ^ 15 * 1000) with 32768000; lia).
  split; [exact E|]. rewrite E. apply Z.div_le_lower_bound; lia.
Qed.

Lemma secondIndex_narrowing_free now s :
  timeSinceImpact now s < NARROWING_FREE_MS ->
  secondIndex now s = timeSinceImpact now s / 1000 /\
  0 <= secondIndex now s.
Proof.
  change NARROWING_FREE_MS with 32768000. intros H.
  assert (E : secondIndex now s = timeSinceImpact now s / 1000)
    by (apply secondIndex_small; change (2 ^ 15 * 1000) with 32768000; lia).
  split; [exact E|]. rewrite E. apply Z.div_pos; [|lia].
  apply (ulong_range (now - impactTime s)).
Qed.

(** ** Float comparisons *)

Lemma IMPACT_SQ_value : IMPACT_SQ = of_Z 4.
Proof. reflexivity. Qed.

Lemma zero_below_thresholds :
  gt zero IMPACT_SQ = false /\ gt zero STABILITY_SQ = false.
Proof. split; reflexivity. Qed.

Lemma compare_cont_opp (p q : positive) (c : comparison) :
  Pos.compare_cont (CompOpp c) q p = CompOpp (Pos.compare_cont c p q).
Proof. symmetry. apply Pos.compare_cont_antisym. Qed.

Lemma SFcompare_opp (a b : float) :
  SFcompare b a = option_map CompOpp (SFcompare a b).
Proof.
  destruct a as [sa| sa| |sa ma ea], b as [sb| sb| |sb mb eb];
    try destruct sa; try destruct sb; try reflexivity; simpl;
    rewrite (Z.compare_antisym ea eb); destruct (ea ?= eb); simpl;
    try reflexivity; rewrite ?CompOpp_involutive; f_equal.
  - exact (Pos.compare_cont_antisym mb ma Eq).
  - exact (compare_cont_opp ma mb Eq).
Qed.

(** [a <= b] excludes [a > b]. *)
Lemma le_not_gt (a b : float) : le a b = true -> gt a b = false.
Proof.
  unfold gt, le, SFleb, SFltb. rewrite (SFcompare_opp a b).
  destruct (SFcompare a b) as [[ | | ]|]; simpl; congruence.
Qed.

(** The stability threshold lies below the impact threshold, so every
    impact sample also counts as motion. *)
Lemma gt_impact_gt_stability (v : float) :
  gt v IMPACT_SQ = true -> gt v STABILITY_SQ = true.
Proof.
  unfold gt, SFltb.
  destruct v as [[|]| [|]| |[|] m e]; try (vm_compute; congruence).
  change IMPACT_SQ with (S754_finite false 8388608 (-21)).
  change STABILITY_SQ with (S754_finite false 14176746 (-23)).
  unfold SFcompare.
  destruct (Z.compare_spec (-21) e), (Z.compare_spec (-23) e);
    try congruence; lia.
Qed.

(** ** The motion window *)

Lemma array_store_length i b m : length (array_store i b m) = length m.
Proof.
  unfold array_store. destruct (0 <=? i); [apply length_insert | reflexivity].
Qed.

Lemma resetHistory_length m : length (resetHistory m) = length m.
Proof.
  unfold resetHistory. generalize (seq 0 WINDOW_SLOTS). intros l.
  revert m. induction l as [|k l IH]; intros m; simpl; [reflexivity|].
  rewrite IH. apply array_store_length.
Qed.

(** On the five-slot array the reset loop leaves every slot false. *)
Lemma resetHistory_all_false m :
  length m = WINDOW_SLOTS -> resetHistory m = replicate WINDOW_SLOTS false.
Proof.
  intros H.
  destruct m as [|b0 [|b1 [|b2 [|b3 [|b4 [|b5 m]]]]]]; try discriminate H.
  reflexivity.
Qed.

(** The counting loop counts the true slots. *)
Lemma countActive_count m :
  length m = WINDOW_SLOTS ->
  countActive m = Z.of_nat (count_occ Bool.bool_dec m true).
Proof.
  intros H.
  destruct m as [|b0 [|b1 [|b2 [|b3 [|b4 [|b5 m]]]]]]; try discriminate H.
  destruct b0, b1, b2, b3, b4; reflexivity.
Qed.

Lemma countActive_bounds m : 0 <= countActive m <= 5.
Proof.
  unfold countActive. simpl.
  repeat match goal with |- context [if ?b then _ else _] => destruct b end;
    lia.
Qed.

(** A store of [true] never clears a slot. *)
Lemma array_store_true_keeps i m k :
  m !! k = Some true -> array_store i true m !! k = Some true.
Proof.
  intros H. unfold array_store. destruct (0 <=? i); [|exact H].
  destruct (decide (Z.to_nat i = k)) as [->|Hne].
  - apply list_lookup_insert_eq. now apply lookup_lt_Some in H.
  - now rewrite list_lookup_insert_ne.
Qed.

(** ** Frame lemmas for the two halves of an iteration *)

Lemma buttonLogic_impactTime now b s :
  impactTime (buttonLogic now b s) = impactTime s.
Proof.
  step_unfold.
  repeat (case_decide || case_match); reflexivity.
Qed.

Lemma buttonLogic_motionHistory now b s :
  motionHistory (buttonLogic now b s) = motionHistory s.
Proof.
  step_unfold.
  repeat (case_decide || case_match); reflexivity.
Qed.

(** Outside the alarm state the button logic clears the press-edge
    flag, keeps [btnPressStart] and copies the button level to
    [btnHeld]; it never changes the state. *)
Lemma buttonLogic_not_alarm now b s :
  currentState s <> STATE_ALARM ->
  buttonLogic now b s =
  mkState (currentState s) (impactTime s) false (btnPressStart s)
          (bool_decide (b = LOW)) (motionHistory s).
Proof.
  intros H. unfold buttonLogic. case_decide; [contradiction|reflexivity].
Qed.

(** In the alarm state with the button down and the press edge not yet
    seen, the edge is recorded at [now]. *)
Lemma buttonLogic_alarm_edge now s :
  currentState s = STATE_ALARM -> btnWasLow s = false ->
  buttonLogic now LOW s =
  mkState STATE_ALARM (impactTime s) true now true (motionHistory s).
Proof.
  intros H1 H2. destruct s; simpl in *; subst. reflexivity.
Qed.

(** In the alarm state with the button down since an earlier edge, the
    hold time decides. *)
Lemma buttonLogic_alarm_held now s :
  currentState s = STATE_ALARM -> btnWasLow s = true ->
  buttonLogic now LOW s =
  if LONG_PRESS_MS <=? ulong_sub now (btnPressStart s)
  then mkState STATE_MONITORING (impactTime s) false (btnPressStart s) true
               (motionHistory s)
  else mkState STATE_ALARM (impactTime s) true (btnPressStart s) true
               (motionHistory s).
Proof.
  intros H1 H2. destruct s; simpl in *; subst. step_unfold.
  destruct (LONG_PRESS_MS <=? _); reflexivity.
Qed.

Lemma buttonLogic_alarm_released now s :
  currentState s = STATE_ALARM ->
  buttonLogic now HIGH s =
  mkState STATE_ALARM (impactTime s) false (btnPressStart s) false
          (motionHistory s).
Proof. intros H1. destruct s; simpl in *; subst. reflexivity. Qed.

Lemma classify_monitoring_quiet now v s :
  currentState s = STATE_MONITORING -> gt v IMPACT_SQ = false ->
  classify now v s = s /\ stores now v s = [].
Proof. intros H1 H2. step_unfold. rewrite H1, H2. split; reflexivity. Qed.

Lemma classify_monitoring_impact now v s :
  currentState s = STATE_MONITORING -> gt v IMPACT_SQ = true ->
  classify now v s =
  mkState STATE_JUDGING now (btnWasLow s) (btnPressStart s) (btnHeld s)
          (resetHistory (motionHistory s)).
Proof. intros H1 H2. step_unfold. rewrite H1, H2. reflexivity. Qed.

Lemma classify_alarm now v s :
  currentState s = STATE_ALARM -> classify now v s = s /\ stores now v s = [].
Proof. intros H1. step_unfold. rewrite H1. split; reflexivity. Qed.

Lemma classify_judging now v s :
  currentState s = STATE_JUDGING ->
  classify now v s =
  mkState
    (if JUDGE_WINDOW_MS <=? timeSinceImpact now s then
       if REQUIRED_ACTIVE_SECONDS <=? countActive (recorded now v s)
       then STATE_MONITORING else STATE_ALARM
     else STATE_JUDGING)
    (impactTime s) (btnWasLow s) (btnPressStart s) (btnHeld s)
    (recorded now v s).
Proof.
  intros H1. unfold recorded, classify, classify_log. rewrite H1.
  destruct ((secondIndex now s <? 5) && gt v STABILITY_SQ); simpl;
    destruct (JUDGE_WINDOW_MS <=? timeSinceImpact now s); simpl;
    try (destruct (REQUIRED_ACTIVE_SECONDS <=? _); simpl);
    destruct s; simpl in *; subst; reflexivity.
Qed.

Lemma recorded_length now v s :
  length (recorded now v s) = length (motionHistory s).
Proof.
  unfold recorded. case_match; [apply array_store_length | reflexivity].
Qed.

(** The finalizing iteration records nothing. *)
Lemma recorded_late now v s :
  JUDGE_WINDOW_MS <= timeSinceImpact now s ->
  timeSinceImpact now s < NARROWING_FREE_MS ->
  recorded now v s = motionHistory s.
Proof.
  intros H1 H2. destruct (secondIndex_late now s H1 H2) as [_ L].
  unfold recorded.
  destruct (Z.ltb_spec (secondIndex now s) 5); [lia | reflexivity].
Qed.

(** ** Invariants of the running sketch *)

Lemma classify_window_ok now v s : window_ok s -> window_ok (classify now v s).
Proof.
  unfold window_ok. intros H.
  destruct (currentState s) eqn:E.
  - destruct (gt v IMPACT_SQ) eqn:G.
    + rewrite classify_monitoring_impact by assumption. simpl.
      now rewrite resetHistory_length.
    + now rewrite (proj1 (classify_monitoring_quiet now v s E G)).
  - rewrite classify_judging by assumption. simpl.
    now rewrite recorded_length.
  - now rewrite (proj1 (classify_alarm now v s E)).
Qed.

Lemma loop_window_ok i s : window_ok s -> window_ok (loop i s).
Proof.
  intros H. unfold window_ok, loop. rewrite buttonLogic_motionHistory.
  now apply classify_window_ok.
Qed.

(** An iteration that does not end in the alarm state ends with the
    press-edge flag cleared. *)
Lemma loop_edge_cleared i s :
  currentState (loop i s) <> STATE_ALARM -> btnWasLow (loop i s) = false.
Proof.
  unfold loop. generalize (classify (millis i) (aMagSq i) s). intros c.
  unfold buttonLogic. repeat (case_decide || case_match); simpl;
    congruence.
Qed.

Lemma reachable_window_ok s : reachable s -> window_ok s.
Proof.
  induction 1 as [|i s _ IH]; [reflexivity | now apply loop_window_ok].
Qed.

Lemma reachable_edge_cleared s :
  reachable s -> currentState s <> STATE_ALARM -> btnWasLow s = false.
Proof.
  destruct 1 as [|i s _]; [reflexivity | apply loop_edge_cleared].
Qed.

Lemma reachable_run inputs s : reachable s -> reachable (run inputs s).
Proof.
  revert s. induction inputs as [|i inputs IH]; intros s H; simpl;
    [assumption | apply IH; now constructor].
Qed.

Lemma run_app xs ys s : run (xs ++ ys) s = run ys (run xs s).
Proof. unfold run. apply fold_left_app. Qed.

(** ** One iteration, seen through the classifier *)

Lemma classify_button_fields now v s :
  btnWasLow (classify now v s) = btnWasLow s /\
  btnPressStart (classify now v s) = btnPressStart s /\
  btnHeld (classify now v s) = btnHeld s.
Proof.
  destruct (currentState s) eqn:E.
  - destruct (gt v IMPACT_SQ) eqn:G.
    + rewrite classify_monitoring_impact by assumption. now simpl.
    + now rewrite (proj1 (classify_monitoring_quiet now v s E G)).
  - rewrite classify_judging by assumption. now simpl.
  - now rewrite (proj1 (classify_alarm now v s E)).
Qed.

Lemma loop_impactTime i s :
  impactTime (loop i s) = impactTime (classify (millis i) (aMagSq i) s).
Proof. apply buttonLogic_impactTime. Qed.

Lemma loop_motionHistory i s :
  motionHistory (loop i s) = motionHistory (classify (millis i) (aMagSq i) s).
Proof. apply buttonLogic_motionHistory. Qed.

(** With the press-edge flag clear, the button cannot undo in the same
    iteration what the classifier decided. *)
Lemma loop_currentState i s :
  btnWasLow s = false ->
  currentState (loop i s) = currentState (classify (millis i) (aMagSq i) s).
Proof.
  intros Hb. unfold loop.
  pose proof (classify_button_fields (millis i) (aMagSq i) s) as (Hw & _).
  rewrite Hb in Hw.
  destruct (decide (currentState (classify (millis i) (aMagSq i) s)
                    = STATE_ALARM)) as [Ha|Ha].
  - destruct (btnState i).
    + rewrite buttonLogic_alarm_edge by assumption. now rewrite Ha.
    + rewrite buttonLogic_alarm_released by assumption. now rewrite Ha.
  - now rewrite buttonLogic_not_alarm.
Qed.

(** While the window is open the sketch stays in the judging state and
    keeps the impact time. *)
Lemma loop_judging_pending i s :
  currentState s = STATE_JUDGING ->
  timeSinceImpact (millis i) s < JUDGE_WINDOW_MS ->
  currentState (loop i s) = STATE_JUDGING /\
  impactTime (loop i s) = impactTime s.
Proof.
  intros Hs Ht. rewrite loop_impactTime. unfold loop.
  rewrite classify_judging by assumption.
  destruct (JUDGE_WINDOW_MS <=? timeSinceImpact (millis i) s) eqn:E;
    [apply Z.leb_le in E; lia|].
  rewrite buttonLogic_not_alarm by (simpl; discriminate). now simpl.
Qed.

Lemma run_judging_pending pre : forall s,
  currentState s = STATE_JUDGING ->
  Forall (fun i => timeSinceImpact (millis i) s < JUDGE_WINDOW_MS) pre ->
  currentState (run pre s) = STATE_JUDGING /\
  impactTime (run pre s) = impactTime s.
Proof.
  induction pre as [|i pre IH]; intros s Hs Hall; simpl; [now split|].
  inversion Hall as [|? ? Hi Hrest]; subst.
  destruct (loop_judging_pending i s Hs Hi) as [Hs' Ht'].
  destruct (IH (loop i s) Hs') as [H1 H2].
  - eapply Forall_impl; [exact Hrest|]. intros j Hj.
    unfold timeSinceImpact in *. now rewrite Ht'.
  - split; [exact H1 | now rewrite H2].
Qed.

(** C1. In a judging episode of the running sketch, the iterations whose
    elapsed time since the impact is below 5000 ms keep the state at
    Judging with the impact time as recorded; the first iteration whose
    elapsed time is at least 5000 ms (and below 32768 s, where the slot
    index is not changed by its narrowing to [int]) finalizes: it
    records nothing more, [activeCount] is the number of true slots of
    the window, and the state becomes Monitoring when
    [activeCount >= 3] and Alarm otherwise. *)
Theorem judging_finalizes_at_window_end
  (s : state) (pre : list input) (x : input) :
  reachable s ->
  currentState s = STATE_JUDGING ->
  Forall (fun i => timeSinceImpact (millis i) s < JUDGE_WINDOW_MS) pre ->
  JUDGE_WINDOW_MS <= timeSinceImpact (millis x) s ->
  timeSinceImpact (millis x) s < NARROWING_FREE_MS ->
  let before := run pre s in
  let after := run (pre ++ [x]) s in
  let activeCount := countActive (motionHistory after) in
  currentState before = STATE_JUDGING /\
  impactTime before = impactTime s /\
  motionHistory after = motionHistory before /\
  activeCount = Z.of_nat (count_occ Bool.bool_dec (motionHistory after) true) /\
  currentState after =
    (if REQUIRED_ACTIVE_SECONDS <=? activeCount
     then STATE_MONITORING else STATE_ALARM).
Proof.
  intros Hr Hs Hpre Hx Hn before after activeCount.
  destruct (run_judging_pending pre s Hs Hpre) as [Hb Ht].
  fold before in Hb, Ht.
  assert (Hrb : reachable before) by now apply reachable_run.
  assert (Hafter : after = loop x before).
  { unfold after. now rewrite run_app. }
  assert (Hsame : timeSinceImpact (millis x) before
                  = timeSinceImpact (millis x) s)
    by (unfold timeSinceImpact; now rewrite Ht).
  split; [exact Hb|]. split; [exact Ht|]. split.
  { rewrite Hafter, loop_motionHistory.
    rewrite classify_judging by exact Hb. simpl.
    apply recorded_late; now rewrite Hsame. }
  split.
  - apply countActive_count. rewrite Hafter.
    apply loop_window_ok. now apply reachable_window_ok.
  - unfold activeCount. rewrite Hafter, loop_motionHistory.
    rewrite loop_currentState
      by (apply reachable_edge_cleared; [exact Hrb | rewrite Hb; discriminate]).
    rewrite classify_judging by exact Hb. simpl.
    assert (E : (JUDGE_WINDOW_MS <=? timeSinceImpact (millis x) before) = true).
    { apply Z.leb_le. unfold timeSinceImpact in *. now rewrite Ht. }
    now rewrite E.
Qed.

(** An impact at t = 0 followed by stillness: the alarm is raised at
    t = 5000. *)
Lemma judging_finalizes_at_window_end_witness :
  currentState
    (run ([mkInput 2500 zero HIGH; mkInput 4999 zero HIGH]
            ++ [mkInput 5000 zero HIGH])
         (loop (mkInput 0 sample_impact HIGH) initial)) = STATE_ALARM.
Proof.
  pose proof (judging_finalizes_at_window_end
                (loop (mkInput 0 sample_impact HIGH) initial)
                [mkInput 2500 zero HIGH; mkInput 4999 zero HIGH]
                (mkInput 5000 zero HIGH)) as H.
  destruct H as (_ & _ & _ & _ & H).
  - apply reachable_loop, reachable_initial.
  - reflexivity.
  - repeat constructor.
  - vm_compute. discriminate.
  - vm_compute. reflexivity.
  - exact H.
Defined.

(** Motion in seconds 0, 1 and 2 after the impact: three active slots,
    back to Monitoring at t = 5000. *)
Example majority_false_alarm :
  let final :=
    run [mkInput 0 sample_impact HIGH; mkInput 500 sample_motion HIGH;
         mkInput 1500 sample_motion HIGH; mkInput 2500 sample_motion HIGH;
         mkInput 4999 zero HIGH; mkInput 5000 zero HIGH] initial in
  currentState final = STATE_MONITORING /\
  countActive (motionHistory final) = 3.
Proof. split; reflexivity. Qed.

(** Motion in second 1 only: one active slot, Alarm at t = 5000. *)
Example minority_fall_confirmed :
  let final :=
    run [mkInput 0 sample_impact HIGH; mkInput 1500 sample_motion HIGH;
         mkInput 4999 zero HIGH; mkInput 5000 zero HIGH] initial in
  currentState final = STATE_ALARM /\
  countActive (motionHistory final) = 1.
Proof. split; reflexivity. Qed.

(** ** Monitoring *)

(** An iteration in Monitoring whose sample is not above the impact
    threshold changes none of the classifier's variables. *)
Lemma loop_monitoring_quiet i s :
  currentState s = STATE_MONITORING ->
  gt (aMagSq i) IMPACT_SQ = false ->
  classify (millis i) (aMagSq i) s = s /\
  currentState (loop i s) = STATE_MONITORING /\
  impactTime (loop i s) = impactTime s /\
  motionHistory (loop i s) = motionHistory s /\
  btnPressStart (loop i s) = btnPressStart s.
Proof.
  intros Hs Hq.
  destruct (classify_monitoring_quiet (millis i) (aMagSq i) s Hs Hq)
    as [Hc _].
  split; [exact Hc|]. unfold loop. rewrite Hc.
  rewrite buttonLogic_not_alarm by (rewrite Hs; discriminate).
  simpl. now rewrite Hs.
Qed.

Lemma run_monitoring_quiet inputs : forall s,
  currentState s = STATE_MONITORING ->
  Forall (fun i => gt (aMagSq i) IMPACT_SQ = false) inputs ->
  currentState (run inputs s) = STATE_MONITORING /\
  impactTime (run inputs s) = impactTime s /\
  motionHistory (run inputs s) = motionHistory s.
Proof.
  induction inputs as [|i inputs IH]; intros s Hs Hall; simpl;
    [now repeat split|].
  inversion Hall as [|? ? Hi Hrest]; subst.
  destruct (loop_monitoring_quiet i s Hs Hi) as (_ & H1 & H2 & H3 & _).
  destruct (IH (loop i s) H1 Hrest) as (K1 & K2 & K3).
  repeat split; congruence.
Qed.

(** C2. From a Monitoring state, samples that do not exceed the impact
    threshold (4.0) leave the state, the impact time and the window as
    they are (the state machine returns the state unchanged); the first
    sample strictly above the threshold moves the state to Judging,
    records its timestamp as the impact time and leaves all five slots
    of the window false. *)
Theorem monitoring_single_trigger
  (s : state) (pre : list input) (x : input) :
  currentState s = STATE_MONITORING ->
  window_ok s ->
  Forall (fun i => gt (aMagSq i) IMPACT_SQ = false) pre ->
  gt (aMagSq x) IMPACT_SQ = true ->
  let before := run pre s in
  let after := run (pre ++ [x]) s in
  IMPACT_SQ = of_Z 4 /\
  (forall i, gt (aMagSq i) IMPACT_SQ = false ->
             classify (millis i) (aMagSq i) s = s) /\
  (currentState before = STATE_MONITORING /\
   impactTime before = impactTime s /\
   motionHistory before = motionHistory s) /\
  (currentState after = STATE_JUDGING /\
   impactTime after = millis x /\
   motionHistory after = [false; false; false; false; false]).
Proof.
  intros Hs Hw Hpre Hx before after.
  split; [reflexivity|].
  split; [intros i Hi; now apply classify_monitoring_quiet|].
  destruct (run_monitoring_quiet pre s Hs Hpre) as (B1 & B2 & B3).
  fold before in B1, B2, B3.
  split; [now repeat split|].
  assert (Hafter : after = loop x before).
  { unfold after. now rewrite run_app. }
  rewrite Hafter. unfold loop.
  rewrite classify_monitoring_impact by assumption.
  rewrite buttonLogic_not_alarm by (simpl; discriminate). simpl.
  repeat split. rewrite B3. now apply resetHistory_all_false.
Qed.

Lemma monitoring_single_trigger_witness :
  let w := [true; false; true; false; false] in
  let s := mkState STATE_MONITORING 7 false 0 false w in
  let after :=
    run ([mkInput 100 zero HIGH; mkInput 200 sample_motion LOW]
           ++ [mkInput 300 sample_impact HIGH]) s in
  currentState after = STATE_JUDGING /\
  impactTime after = 300 /\
  motionHistory after = [false; false; false; false; false].
Proof.
  intros w s after.
  apply (monitoring_single_trigger s
           [mkInput 100 zero HIGH; mkInput 200 sample_motion LOW]
           (mkInput 300 sample_impact HIGH)).
  - reflexivity.
  - reflexivity.
  - repeat constructor.
  - reflexivity.
Defined.

(** C4. Started in Monitoring and fed samples whose squared magnitude
    is at most the impact threshold, the sketch is in Monitoring after
    every iteration: it never enters Judging or Alarm. *)
Theorem monitoring_is_stable (s : state) (inputs : list input) :
  currentState s = STATE_MONITORING ->
  Forall (fun i => le (aMagSq i) IMPACT_SQ = true) inputs ->
  forall pre, pre `prefix_of` inputs ->
  currentState (run pre s) = STATE_MONITORING.
Proof.
  intros Hs Hall pre [rest ->].
  apply Forall_app in Hall as [Hpre _].
  apply run_monitoring_quiet; [exact Hs|].
  eapply Forall_impl; [exact Hpre|]. intros i Hi. now apply le_not_gt.
Qed.

Lemma monitoring_is_stable_witness :
  currentState
    (run [mkInput 10 zero LOW; mkInput 20 (of_Z 4) LOW;
          mkInput 3000 sample_motion LOW] initial) = STATE_MONITORING.
Proof.
  apply (monitoring_is_stable initial
           [mkInput 10 zero LOW; mkInput 20 (of_Z 4) LOW;
            mkInput 3000 sample_motion LOW]).
  - reflexivity.
  - repeat constructor.
  - reflexivity.
Defined.

(** ** Alarm and the long press *)

(** In the alarm state an iteration with the button down keeps the
    recorded press edge until the hold reaches the long-press time. *)
Lemma loop_alarm_holding i s :
  currentState s = STATE_ALARM -> btnWasLow s = true ->
  btnState i = LOW ->
  ulong_sub (millis i) (btnPressStart s) < LONG_PRESS_MS ->
  currentState (loop i s) = STATE_ALARM /\
  btnWasLow (loop i s) = true /\
  btnPressStart (loop i s) = btnPressStart s.
Proof.
  intros Hs Hw Hb Ht. unfold loop.
  rewrite (proj1 (classify_alarm (millis i) (aMagSq i) s Hs)).
  rewrite Hb, buttonLogic_alarm_held by assumption.
  destruct (LONG_PRESS_MS <=? ulong_sub (millis i) (btnPressStart s)) eqn:E;
    [apply Z.leb_le in E; lia | now simpl].
Qed.

Lemma run_alarm_holding held : forall s,
  currentState s = STATE_ALARM -> btnWasLow s = true ->
  Forall (fun i => btnState i = LOW /\
                   ulong_sub (millis i) (btnPressStart s) < LONG_PRESS_MS)
         held ->
  currentState (run held s) = STATE_ALARM /\
  btnWasLow (run held s) = true /\
  btnPressStart (run held s) = btnPressStart s.
Proof.
  induction held as [|i held IH]; intros s Hs Hw Hall; simpl;
    [now repeat split|].
  inversion Hall as [|? ? [Hb Ht] Hrest]; subst.
  destruct (loop_alarm_holding i s Hs Hw Hb Ht) as (H1 & H2 & H3).
  destruct (IH (loop i s) H1 H2) as (K1 & K2 & K3).
  - eapply Forall_impl; [exact Hrest|]. intros j Hj. now rewrite H3.
  - repeat split; congruence.
Qed.

(** The iteration that decides a hold. *)
Lemma loop_alarm_decides i s :
  currentState s = STATE_ALARM -> btnWasLow s = true ->
  btnState i = LOW ->
  currentState (loop i s) =
  if LONG_PRESS_MS <=? ulong_sub (millis i) (btnPressStart s)
  then STATE_MONITORING else STATE_ALARM.
Proof.
  intros Hs Hw Hb. unfold loop.
  rewrite (proj1 (classify_alarm (millis i) (aMagSq i) s Hs)).
  rewrite Hb, buttonLogic_alarm_held by assumption.
  now destruct (LONG_PRESS_MS <=? ulong_sub (millis i) (btnPressStart s)).
Qed.

(** C3. In the alarm state, let the press edge be observed at [t0] (the
    first iteration with the button down) and the button stay down.
    While the hold time since [t0] is below 2000 ms the alarm stays on;
    the iteration at which the hold time is at least 2000 ms returns the
    state to Monitoring, and an iteration at which it is still below
    2000 ms (1999 ms, say) does not. *)
Theorem long_press_cancels_alarm
  (s : state) (t0 : Z) (v0 : float) (held : list input) (x : input) :
  currentState s = STATE_ALARM ->
  btnWasLow s = false ->
  Forall (fun i => btnState i = LOW /\
                   ulong_sub (millis i) t0 < LONG_PRESS_MS) held ->
  btnState x = LOW ->
  let pressed := run (mkInput t0 v0 LOW :: held) s in
  currentState pressed = STATE_ALARM /\
  btnPressStart pressed = t0 /\
  (currentState (loop x pressed) = STATE_MONITORING <->
   LONG_PRESS_MS <= ulong_sub (millis x) t0) /\
  (currentState (loop x pressed) = STATE_ALARM <->
   ulong_sub (millis x) t0 < LONG_PRESS_MS).
Proof.
  intros Hs Hw Hheld Hx pressed.
  set (s1 := loop (mkInput t0 v0 LOW) s).
  assert (E1 : s1 = mkState STATE_ALARM (impactTime s) true t0 true
                            (motionHistory s)).
  { unfold s1, loop. simpl.
    rewrite (proj1 (classify_alarm t0 v0 s Hs)).
    now apply buttonLogic_alarm_edge. }
  assert (Hp : pressed = run held s1) by reflexivity.
  destruct (run_alarm_holding held s1) as (P1 & P2 & P3).
  { now rewrite E1. }
  { now rewrite E1. }
  { eapply Forall_impl; [exact Hheld|]. intros j Hj. now rewrite E1. }
  rewrite <- Hp in P1, P2, P3.
  assert (P4 : btnPressStart pressed = t0) by (rewrite P3; now rewrite E1).
  split; [exact P1|]. split; [exact P4|].
  rewrite (loop_alarm_decides x pressed P1 P2 Hx), P4.
  destruct (LONG_PRESS_MS <=? ulong_sub (millis x) t0) eqn:E.
  - apply Z.leb_le in E. split; split; intros; try lia; try reflexivity.
    discriminate.
  - apply Z.leb_gt in E. split; split; intros; try lia; try reflexivity.
    discriminate.
Qed.

(** Alarm at t = 6000, button down from t = 6000 to t = 8000: cancelled
    at t = 8000. *)
Lemma long_press_cancels_alarm_witness :
  currentState
    (loop (mkInput 8000 zero LOW)
          (run (mkInput 6000 zero LOW ::
                [mkInput 7000 zero LOW; mkInput 7999 zero LOW]) alarmed))
  = STATE_MONITORING.
Proof.
  apply (long_press_cancels_alarm alarmed 6000 zero
           [mkInput 7000 zero LOW; mkInput 7999 zero LOW]
           (mkInput 8000 zero LOW)).
  - reflexivity.
  - reflexivity.
  - repeat constructor.
  - reflexivity.
  - vm_compute. discriminate.
Defined.

(** A hold of 1999 ms leaves the alarm on. *)
Example hold_1999_does_not_cancel :
  currentState
    (run [mkInput 6000 zero LOW; mkInput 7000 zero LOW;
          mkInput 7999 zero LOW] alarmed) = STATE_ALARM.
Proof. reflexivity. Qed.

(** Releasing the button forgets the press edge: the next press starts
    a new hold. *)
Example release_restarts_hold :
  currentState
    (run [mkInput 6000 zero LOW; mkInput 7000 zero HIGH;
          mkInput 7001 zero LOW; mkInput 8500 zero LOW] alarmed)
  = STATE_ALARM.
Proof. reflexivity. Qed.

(** ** Stores to the motion window *)

(** The switch stores to the window only in the judging case and in the
    reset on entering it. *)
Lemma stores_only_judging now v s :
  stores now v s <> [] ->
  currentState s = STATE_JUDGING \/
  (currentState s = STATE_MONITORING /\
   currentState (classify now v s) = STATE_JUDGING).
Proof.
  intros H. destruct (currentState s) eqn:E.
  - right. split; [reflexivity|]. destruct (gt v IMPACT_SQ) eqn:G.
    + now rewrite classify_monitoring_impact.
    + now rewrite (proj2 (classify_monitoring_quiet now v s E G)) in H.
  - now left.
  - now rewrite (proj2 (classify_alarm now v s E)) in H.
Qed.

Lemma stores_judging now v s :
  currentState s = STATE_JUDGING ->
  stores now v s =
  if (secondIndex now s <? 5) && gt v STABILITY_SQ
  then [secondIndex now s] else [].
Proof.
  intros H. unfold stores, classify_log. rewrite H.
  destruct ((secondIndex now s <? 5) && gt v STABILITY_SQ); simpl;
    repeat case_match; reflexivity.
Qed.

(** No store goes past the last slot. *)
Lemma stores_not_past_window now v s :
  Forall (fun k => k < 5) (stores now v s).
Proof.
  destruct (currentState s) eqn:E.
  - unfold stores, classify_log. rewrite E.
    destruct (gt v IMPACT_SQ); simpl; repeat constructor.
  - rewrite stores_judging by assumption.
    destruct (secondIndex now s <? 5) eqn:L; simpl; [|constructor].
    apply Z.ltb_lt in L. destruct (gt v STABILITY_SQ); repeat constructor.
    exact L.
  - rewrite (proj2 (classify_alarm now v s E)). constructor.
Qed.

(** A sample whose slot index is 5 or more stores nothing and leaves the
    window as it is. *)
Lemma index_past_window_ignored now v s :
  currentState s = STATE_JUDGING -> 5 <= secondIndex now s ->
  stores now v s = [] /\
  motionHistory (classify now v s) = motionHistory s.
Proof.
  intros H L. rewrite stores_judging, classify_judging by assumption.
  simpl. unfold recorded.
  destruct (secondIndex now s <? 5) eqn:E; [apply Z.ltb_lt in E; lia|].
  now simpl.
Qed.

(** As long as less than 32768 s have passed since the impact, every
    store lands in the window. *)
Lemma stores_in_window now v s :
  timeSinceImpact now s < 2 ^ 15 * 1000 ->
  Forall (fun k => 0 <= k < 5) (stores now v s).
Proof.
  intros Ht. destruct (currentState s) eqn:E.
  - unfold stores, classify_log. rewrite E.
    destruct (gt v IMPACT_SQ); simpl;
      repeat (apply List.Forall_cons; [lia|]); apply List.Forall_nil.
  - rewrite stores_judging by assumption.
    destruct (secondIndex now s <? 5) eqn:L; simpl; [|constructor].
    apply Z.ltb_lt in L.
    destruct (gt v STABILITY_SQ); [|constructor].
    apply List.Forall_cons; [|apply List.Forall_nil]. split; [|exact L].
    rewrite secondIndex_small by exact Ht.
    apply Z.div_pos; [|lia].
    apply (ulong_range (now - impactTime s)).
  - rewrite (proj2 (classify_alarm now v s E)). constructor.
Qed.

(** C5. The sketch enters Judging at t = 0 and its next iteration comes
    32768 s later with a motion sample.  The quotient 32768 does not fit
    the 16-bit [int secondIndex] and becomes -32768, which passes the
    guard [secondIndex < 5]: the iteration stores to
    [motionHistory[-32768]], outside the five slots. *)
Theorem stale_judging_stores_below_window :
  let s := loop (mkInput 0 sample_impact HIGH) initial in
  reachable s /\
  currentState s = STATE_JUDGING /\
  timeSinceImpact 32768000 s / 1000 = 32768 /\
  secondIndex 32768000 s = -32768 /\
  gt sample_motion STABILITY_SQ = true /\
  stores 32768000 sample_motion s = [-32768].
Proof.
  intros s. split; [apply reachable_loop, reachable_initial|].
  repeat split; reflexivity.
Qed.

(** ** A second impact *)

(** C6. A sample above the impact threshold that arrives in Judging
    (less than 32768 s after the impact, where the slot index is the
    number of whole seconds elapsed) or in Alarm leaves the impact time
    as it is and clears no slot of the window.  In Alarm the state
    machine ignores it.  In Judging the state machine treats it as it
    treats any sample above the stability threshold: it marks at most
    the slot of the current second. *)
Theorem second_impact_is_only_motion (s : state) (i : input) :
  gt (aMagSq i) IMPACT_SQ = true ->
  (currentState s = STATE_JUDGING /\
   timeSinceImpact (millis i) s < NARROWING_FREE_MS) \/
  currentState s = STATE_ALARM ->
  let s' := loop i s in
  impactTime s' = impactTime s /\
  (forall k, motionHistory s !! k = Some true ->
             motionHistory s' !! k = Some true) /\
  (currentState s = STATE_ALARM ->
   classify (millis i) (aMagSq i) s = s /\
   motionHistory s' = motionHistory s) /\
  (currentState s = STATE_JUDGING ->
   secondIndex (millis i) s = timeSinceImpact (millis i) s / 1000 /\
   0 <= secondIndex (millis i) s /\
   (forall v, gt v STABILITY_SQ = true ->
              classify (millis i) v s = classify (millis i) (aMagSq i) s) /\
   motionHistory s' =
     (if secondIndex (millis i) s <? 5
      then array_store (secondIndex (millis i) s) true (motionHistory s)
      else motionHistory s) /\
   stores (millis i) (aMagSq i) s =
     (if secondIndex (millis i) s <? 5
      then [secondIndex (millis i) s] else [])).
Proof.
  intros Hv Hs s'. unfold s'.
  rewrite loop_impactTime, loop_motionHistory.
  pose proof (gt_impact_gt_stability _ Hv) as Hm.
  destruct Hs as [[Hs Hn]|Hs].
  - rewrite classify_judging by assumption. simpl.
    assert (R : recorded (millis i) (aMagSq i) s =
                if secondIndex (millis i) s <? 5
                then array_store (secondIndex (millis i) s) true
                                 (motionHistory s)
                else motionHistory s).
    { unfold recorded. rewrite Hm.
      now destruct (secondIndex (millis i) s <? 5). }
    split; [reflexivity|]. split.
    + intros k Hk. rewrite R.
      destruct (secondIndex (millis i) s <? 5);
        [now apply array_store_true_keeps | exact Hk].
    + split; [intros Ha; congruence|]. intros _.
      destruct (secondIndex_narrowing_free _ _ Hn) as [N1 N2].
      split; [exact N1|]. split; [exact N2|]. split; [|split].
      * intros v Hv'. rewrite !classify_judging by assumption.
        unfold recorded. now rewrite Hv', Hm.
      * exact R.
      * rewrite stores_judging by assumption. rewrite Hm.
        now destruct (secondIndex (millis i) s <? 5).
  - rewrite (proj1 (classify_alarm (millis i) (aMagSq i) s Hs)).
    split; [reflexivity|]. split; [tauto|].
    split; [tauto | intros Hj; congruence].
Qed.

Lemma second_impact_is_only_motion_witness :
  let s := mkState STATE_JUDGING 1000 false 0 false
                   [true; false; false; false; false] in
  let s' := loop (mkInput 2500 sample_impact HIGH) s in
  impactTime s' = 1000 /\
  motionHistory s' = [true; true; false; false; false].
Proof.
  intros s s'.
  destruct (second_impact_is_only_motion s (mkInput 2500 sample_impact HIGH))
    as (H1 & _ & _ & H2).
  - reflexivity.
  - left. split; [reflexivity | vm_compute; reflexivity].
  - destruct (H2 eq_refl) as (_ & _ & _ & H3 & _).
    split; [exact H1 | exact H3].
Defined.

(** ** Sensor failure *)

Lemma readAccelSqMagnitude_short rx :
  Wire_available rx < 6 -> readAccelSqMagnitude rx = zero.
Proof.
  intros H. unfold readAccelSqMagnitude.
  destruct (Wire_available rx <? 6) eqn:E; [reflexivity|].
  apply Z.ltb_ge in E. lia.
Qed.

(** C7. When fewer than six bytes are available the sensor read returns
    0.0.  The state machine takes that value as a sample without motion:
    it stores to no slot in any state, in Monitoring and Alarm it
    returns the state unchanged (the iteration stays in Monitoring), and
    in Judging the window and the impact time stay as they are.  The
    iteration is defined for every buffer, clock reading, button level
    and state. *)
Theorem sensor_failure_is_no_motion
  (rx : list byte) (now : Z) (btn : level) (s : state) :
  Wire_available rx < 6 ->
  let v := readAccelSqMagnitude rx in
  let s' := loop_sensor now rx btn s in
  v = zero /\
  stores now v s = [] /\
  (currentState s = STATE_MONITORING ->
   classify now v s = s /\ currentState s' = STATE_MONITORING) /\
  (currentState s = STATE_JUDGING ->
   motionHistory s' = motionHistory s /\ impactTime s' = impactTime s) /\
  (currentState s = STATE_ALARM -> classify now v s = s).
Proof.
  intros Hrx v s'. unfold s', loop_sensor, v.
  rewrite (readAccelSqMagnitude_short rx Hrx).
  destruct zero_below_thresholds as [Zi Zs].
  split; [reflexivity|]. split; [|split; [|split]].
  - destruct (currentState s) eqn:E.
    + now apply classify_monitoring_quiet.
    + rewrite stores_judging by assumption. rewrite Zs.
      now rewrite andb_false_r.
    + now apply classify_alarm.
  - intros Hs.
    destruct (loop_monitoring_quiet (mkInput now zero btn) s Hs Zi)
      as (H1 & H2 & _).
    split; [exact H1 | exact H2].
  - intros Hs. rewrite loop_motionHistory, loop_impactTime. simpl.
    rewrite classify_judging by assumption. simpl. unfold recorded.
    rewrite Zs. now rewrite andb_false_r.
  - intros Hs. now apply classify_alarm.
Qed.

Lemma sensor_failure_is_no_motion_witness :
  let s := mkState STATE_JUDGING 1000 false 0 false
                   [true; false; false; false; false] in
  let rx := [x40; x00; x40; x00; x40]%byte in
  readAccelSqMagnitude rx = zero /\
  motionHistory (loop_sensor 2500 rx HIGH s)
  = [true; false; false; false; false].
Proof.
  intros s rx.
  destruct (sensor_failure_is_no_motion rx 2500 HIGH s) as (H1 & _ & _ & H2 & _).
  - vm_compute. reflexivity.
  - split; [exact H1 | exact (proj1 (H2 eq_refl))].
Defined.

(** With all six bytes there the same read reports the acceleration. *)
Example readAccelSqMagnitude_one_g :
  readAccelSqMagnitude [x00; x00; x00; x00; x40; x00]%byte = of_Z 1.
Proof. reflexivity. Qed.

(** ** Clock wrap-around *)

(** C8. Let the impact (or the press edge) happen at instant [T0] and
    the later reading at instant [T1], less than 2^32 ms apart; the
    readings themselves are taken modulo 2^32, so the later reading may
    be the smaller number.  The unsigned subtraction of the readings is
    the true elapsed time [T1 - T0].  Hence the judging window is left
    exactly when 5000 ms have truly elapsed (for elapsed times below
    32768 s, where the slot index is not changed by its narrowing to
    [int]), below 5000 ms the slot index is the true number of whole
    seconds, and a held button cancels the alarm exactly when it has
    truly been held 2000 ms. *)
Theorem elapsed_time_survives_wraparound
  (T0 T1 : Z) (v : float) (btn : level) (s : state) :
  0 <= T1 - T0 < 2 ^ 32 ->
  let i := mkInput (clock T1) v btn in
  (impactTime s = clock T0 -> timeSinceImpact (clock T1) s = T1 - T0) /\
  (btnPressStart s = clock T0 ->
   ulong_sub (clock T1) (btnPressStart s) = T1 - T0) /\
  (currentState s = STATE_JUDGING -> impactTime s = clock T0 ->
   T1 - T0 < NARROWING_FREE_MS ->
   (currentState (loop i s) = STATE_JUDGING <-> T1 - T0 < JUDGE_WINDOW_MS) /\
   (T1 - T0 < JUDGE_WINDOW_MS ->
    secondIndex (clock T1) s = (T1 - T0) / 1000)) /\
  (currentState s = STATE_ALARM -> btnWasLow s = true ->
   btnPressStart s = clock T0 -> btn = LOW ->
   (currentState (loop i s) = STATE_MONITORING <->
    LONG_PRESS_MS <= T1 - T0)).
Proof.
  intros HT i.
  assert (Hi : forall t, t = clock T0 -> ulong_sub (clock T1) t = T1 - T0).
  { intros t ->. now apply ulong_sub_clock. }
  split; [intros H; unfold timeSinceImpact; now apply Hi|].
  split; [exact (Hi _)|]. split.
  - intros Hs Ht _.
    assert (He : timeSinceImpact (millis i) s = T1 - T0).
    { unfold timeSinceImpact. simpl. now apply Hi. }
    split.
    + split.
      * intros Hj. unfold loop in Hj.
        rewrite classify_judging in Hj by assumption. rewrite He in Hj.
        destruct (JUDGE_WINDOW_MS <=? T1 - T0) eqn:E;
          [|now apply Z.leb_gt in E].
        exfalso. revert Hj.
        destruct (REQUIRED_ACTIVE_SECONDS <=? _).
        -- rewrite buttonLogic_not_alarm by (simpl; discriminate).
           simpl. discriminate.
        -- unfold buttonLogic. simpl.
           repeat (case_decide || case_match); simpl; discriminate.
      * intros Hlt. apply loop_judging_pending; [exact Hs|].
        now rewrite He.
    + intros Hlt. simpl in He. rewrite secondIndex_small; rewrite He;
        [reflexivity | unfold JUDGE_WINDOW_MS in Hlt; lia].
  - intros Hs Hw Hp ->.
    rewrite (loop_alarm_decides i s Hs Hw eq_refl). simpl.
    rewrite (Hi _ Hp).
    destruct (LONG_PRESS_MS <=? T1 - T0) eqn:E.
    + apply Z.leb_le in E. split; [intros _; exact E | reflexivity].
    + apply Z.leb_gt in E. split; [discriminate | lia].
Qed.

(** The impact is read one second before the counter wraps and the
    iteration comes four seconds after: 5000 ms have elapsed. *)
Lemma elapsed_time_survives_wraparound_witness :
  let s := mkState STATE_JUDGING 4294966296 false 0 false
                   [false; false; false; false; false] in
  clock (2 ^ 32 - 1000) = 4294966296 /\
  clock (2 ^ 32 + 4000) = 4000 /\
  timeSinceImpact 4000 s = 5000 /\
  currentState (loop (mkInput 4000 zero HIGH) s) = STATE_ALARM.
Proof.
  intros s.
  destruct (elapsed_time_survives_wraparound
              (2 ^ 32 - 1000) (2 ^ 32 + 4000) zero HIGH s) as (H & _).
  - lia.
  - split; [reflexivity|]. split; [reflexivity|].
    split; [exact (H eq_refl) | reflexivity].
Defined.

(** ** The button outside the alarm state *)

(** C9 as stated says that the hold duration of the specification's
    debouncer is computed outside the alarm state.  It is not: a button
    held for two seconds and a button pressed just now leave the sketch
    in the same state, so nothing computed from the sketch's variables
    and the clock tells the two apart. *)
Lemma hold_duration_not_computed_outside_alarm :
  ~ exists duration : Z -> state -> Z, hold_duration_available duration.
Proof.
  intros [duration H].
  pose proof (H [mkInput 1000 zero LOW; mkInput 2000 zero LOW]
                (mkInput 3000 zero LOW)) as Hheld.
  pose proof (H [mkInput 1000 zero HIGH; mkInput 2000 zero HIGH]
                (mkInput 3000 zero LOW)) as Htap.
  assert (E : run ([mkInput 1000 zero LOW; mkInput 2000 zero LOW]
                     ++ [mkInput 3000 zero LOW]) initial
              = run ([mkInput 1000 zero HIGH; mkInput 2000 zero HIGH]
                       ++ [mkInput 3000 zero LOW]) initial)
    by reflexivity.
  rewrite E in Hheld. rewrite Htap in Hheld by (repeat constructor).
  specialize (Hheld ltac:(repeat constructor)).
  vm_compute in Hheld. discriminate Hheld.
Qed.

(** C9, amended. Whenever the state after the state machine is not
    Alarm, the button logic computes no hold duration: it clears the
    press-edge flag, leaves [btnPressStart] as it was and sets [btnHeld]
    to whether the button is down in this iteration.  The button has no
    influence on the state: the iteration ends in the state the state
    machine chose, whatever the button level. *)
Theorem button_outside_alarm (s : state) (i : input) :
  currentState (classify (millis i) (aMagSq i) s) <> STATE_ALARM ->
  let s' := loop i s in
  btnWasLow s' = false /\
  btnPressStart s' = btnPressStart s /\
  btnHeld s' = bool_decide (btnState i = LOW) /\
  currentState s' = currentState (classify (millis i) (aMagSq i) s) /\
  (forall b, currentState (loop (mkInput (millis i) (aMagSq i) b) s)
             = currentState s').
Proof.
  intros H s'. unfold s', loop. simpl.
  rewrite !buttonLogic_not_alarm by exact H. simpl.
  pose proof (classify_button_fields (millis i) (aMagSq i) s) as (_ & Hp & _).
  split; [reflexivity|]. split; [exact Hp|].
  split; [reflexivity|]. split; [reflexivity|].
  intros b. now rewrite buttonLogic_not_alarm.
Qed.

Lemma button_outside_alarm_witness :
  let s := mkState STATE_JUDGING 0 false 0 true
                   [false; false; false; false; false] in
  let s' := loop (mkInput 4000 zero LOW) s in
  btnWasLow s' = false /\ btnPressStart s' = 0 /\ btnHeld s' = true /\
  currentState s' = STATE_JUDGING.
Proof.
  intros s s'.
  destruct (button_outside_alarm s (mkInput 4000 zero LOW))
    as (H1 & H2 & H3 & H4 & _).
  - vm_compute. discriminate.
  - split; [exact H1|]. split; [exact H2|]. split; [exact H3 | exact H4].
Defined.

(** ** Entering the alarm with the button down *)

(** C10. Let the running sketch enter Alarm in an iteration in which the
    button is down, however long it has been down before (the iteration
    coming less than 32768 s after the impact, where the slot index is
    not changed by its narrowing to [int]).  That iteration records the
    press edge at its own clock reading.  While
    the button stays down and the hold time since that reading is below
    2000 ms the alarm stays on, and an iteration with the button down
    cancels it exactly when the hold time since that reading is at least
    2000 ms. *)
Theorem hold_counts_from_alarm_entry
  (s : state) (x : input) (held : list input) (y : input) :
  reachable s ->
  currentState s <> STATE_ALARM ->
  timeSinceImpact (millis x) s < NARROWING_FREE_MS ->
  btnState x = LOW ->
  currentState (loop x s) = STATE_ALARM ->
  Forall (fun i => btnState i = LOW /\
                   ulong_sub (millis i) (millis x) < LONG_PRESS_MS) held ->
  btnState y = LOW ->
  let entered := loop x s in
  let holding := run held entered in
  btnWasLow entered = true /\
  btnPressStart entered = millis x /\
  currentState holding = STATE_ALARM /\
  btnPressStart holding = millis x /\
  (currentState (loop y holding) = STATE_MONITORING <->
   LONG_PRESS_MS <= ulong_sub (millis y) (millis x)).
Proof.
  intros Hr Hs _ Hx Ha Hheld Hy entered holding.
  pose proof (reachable_edge_cleared s Hr Hs) as Hw.
  assert (Hc : currentState (classify (millis x) (aMagSq x) s) = STATE_ALARM).
  { now rewrite <- loop_currentState. }
  assert (Hcw : btnWasLow (classify (millis x) (aMagSq x) s) = false).
  { now rewrite (proj1 (classify_button_fields _ _ s)). }
  assert (He : entered =
               mkState STATE_ALARM
                       (impactTime (classify (millis x) (aMagSq x) s))
                       true (millis x) true
                       (motionHistory (classify (millis x) (aMagSq x) s))).
  { unfold entered, loop. rewrite Hx. now apply buttonLogic_alarm_edge. }
  destruct (run_alarm_holding held entered) as (P1 & P2 & P3).
  { now rewrite He. }
  { now rewrite He. }
  { eapply Forall_impl; [exact Hheld|]. intros j Hj. now rewrite He. }
  fold holding in P1, P2, P3.
  assert (P4 : btnPressStart holding = millis x)
    by (rewrite P3; now rewrite He).
  split; [now rewrite He|]. split; [now rewrite He|].
  split; [exact P1|]. split; [exact P4|].
  rewrite (loop_alarm_decides y holding P1 P2 Hy), P4.
  destruct (LONG_PRESS_MS <=? ulong_sub (millis y) (millis x)) eqn:E.
  - apply Z.leb_le in E. split; [intros _; exact E | reflexivity].
  - apply Z.leb_gt in E. split; [discriminate | lia].
Qed.

(** The button is down from the impact on; the alarm is raised at
    t = 5000 and the long press is complete at t = 7000, not before. *)
Lemma hold_counts_from_alarm_entry_witness :
  let s := run [mkInput 0 sample_impact LOW; mkInput 2500 zero LOW] initial in
  let entered := loop (mkInput 5000 zero LOW) s in
  btnPressStart entered = 5000 /\
  currentState (run [mkInput 6999 zero LOW] entered) = STATE_ALARM /\
  currentState
    (loop (mkInput 7000 zero LOW) (run [mkInput 6999 zero LOW] entered))
  = STATE_MONITORING.
Proof.
  intros s entered.
  destruct (hold_counts_from_alarm_entry s (mkInput 5000 zero LOW)
              [mkInput 6999 zero LOW] (mkInput 7000 zero LOW))
    as (_ & H1 & H2 & _ & H3).
  - apply reachable_run, reachable_initial.
  - vm_compute. discriminate.
  - vm_compute. reflexivity.
  - reflexivity.
  - reflexivity.
  - repeat constructor.
  - reflexivity.
  - split; [exact H1|]. split; [exact H2|].
    apply H3. vm_compute. discriminate.
Defined.

(** * Further properties of the sketch *)

(** ** The sensor read *)

Lemma byte_val_range b : 0 <= byte_val b < 256.
Proof.
  unfold byte_val. pose proof (Strings.Byte.to_N_bounded b) as H. lia.
Qed.

Lemma lor_shiftl_byte h l :
  0 <= h -> 0 <= l < 256 -> Z.lor (Z.shiftl h 8) l = 256 * h + l.
Proof.
  intros Hh Hl. rewrite Z.shiftl_mul_pow2 by lia.
  change (2 ^ 8) with 256.
  enough (L : Z.land (h * 256) l = 0).
  { pose proof (Z.add_lor_land (h * 256) l) as A. rewrite L in A. lia. }
  apply Z.bits_inj'. intros n Hn. rewrite Z.land_spec, Z.bits_0.
  destruct (Z.lt_ge_cases n 8) as [Hlt|Hge].
  - replace (h * 256) with (h * 2 ^ 8) by reflexivity.
    rewrite Z.mul_pow2_bits_low by lia. reflexivity.
  - destruct (Z.eq_dec l 0) as [->|Hnz];
      [rewrite Z.bits_0; apply andb_false_r|].
    rewrite (Z.bits_above_log2 l n); [apply andb_false_r | lia |].
    apply Z.lt_le_trans with 8; [|exact Hge].
    apply Z.log2_lt_pow2; [lia|]. change (2 ^ 8) with 256. lia.
Qed.

Lemma readAccelSqMagnitude_full xh xl yh yl zh zl rest :
  readAccelSqMagnitude (xh :: xl :: yh :: yl :: zh :: zl :: rest) =
  sqMagnitude (int16_of_bytes xh xl) (int16_of_bytes yh yl)
              (int16_of_bytes zh zl).
Proof.
  unfold readAccelSqMagnitude, Wire_available.
  destruct (Z.of_nat _ <? 6) eqn:E; [|reflexivity].
  apply Z.ltb_lt in E. simpl length in E. lia.
Qed.

Lemma int16_of_bytes_value (hi lo : byte) :
  int16_of_bytes hi lo
  = 256 * byte_val hi + byte_val lo
    - (if byte_val hi <? 128 then 0 else 65536) /\
  -32768 <= int16_of_bytes hi lo <= 32767.
Proof.
  pose proof (byte_val_range hi) as Hh. pose proof (byte_val_range lo) as Hl.
  unfold int16_of_bytes. rewrite lor_shiftl_byte by lia.
  unfold to_int, INT_WIDTH.
  change (2 ^ (16 - 1)) with 32768. change (2 ^ 16) with 65536.
  destruct (byte_val hi <? 128) eqn:E.
  - apply Z.ltb_lt in E. rewrite Z.mod_small by lia. lia.
  - apply Z.ltb_ge in E.
    replace (256 * byte_val hi + byte_val lo + 32768)
      with (256 * byte_val hi + byte_val lo - 32768 + 1 * 65536) by lia.
    rewrite Z.mod_add by lia. rewrite Z.mod_small by lia. lia.
Qed.

(** X1. The two bytes of an axis are decoded as a big-endian 16-bit
    two's complement number: the first byte is the high byte, and a
    high byte of 128 or more makes the count negative. *)
Theorem int16_of_bytes_big_endian (hi lo : byte) :
  int16_of_bytes hi lo
  = 256 * byte_val hi + byte_val lo
    - (if byte_val hi <? 128 then 0 else 65536) /\
  -32768 <= int16_of_bytes hi lo <= 32767.
Proof. apply int16_of_bytes_value. Qed.

(** *** Rounding keeps the sign and never makes a NaN *)

Lemma shr_1_nonneg mrs : 0 <= shr_m mrs -> 0 <= shr_m (shr_1 mrs).
Proof.
  destruct mrs as [m r t]. destruct m as [|[p|p|]|[p|p|]]; simpl; lia.
Qed.

Lemma iter_shr_1_nonneg p : forall mrs,
  0 <= shr_m mrs -> 0 <= shr_m (SpecFloat.iter_pos shr_1 p mrs).
Proof.
  induction p as [p IH|p IH|]; intros mrs H; simpl.
  - apply IH, IH. now apply shr_1_nonneg.
  - now apply IH, IH.
  - now apply shr_1_nonneg.
Qed.

Lemma shr_fexp_nonneg m e l :
  0 <= m -> 0 <= shr_m (fst (shr_fexp prec emax m e l)).
Proof.
  intros H. unfold shr_fexp, shr.
  assert (H0 : 0 <= shr_m (shr_record_of_loc m l))
    by (destruct l as [|[ | | ]]; exact H).
  destruct (fexp prec emax (Zdigits2 m + e) - e); simpl;
    [exact H0 | now apply iter_shr_1_nonneg | exact H0].
Qed.

Lemma round_nearest_even_nonneg m l :
  0 <= m -> 0 <= round_nearest_even m l.
Proof.
  intros H. destruct l as [|[ | | ]]; simpl; try lia.
  destruct (Z.even m); lia.
Qed.

Lemma binary_round_aux_sign sx mx ex lx :
  0 <= mx -> has_sign sx (binary_round_aux prec emax sx mx ex lx) = true.
Proof.
  intros H. unfold binary_round_aux.
  pose proof (shr_fexp_nonneg mx ex lx H) as H1.
  destruct (shr_fexp prec emax mx ex lx) as [mrs1 e1]. simpl in H1.
  pose proof (shr_fexp_nonneg _ e1 loc_Exact
                (round_nearest_even_nonneg _ (loc_of_shr_record mrs1) H1))
    as H2.
  destruct (shr_fexp prec emax _ e1 loc_Exact) as [mrs2 e2]. simpl in H2.
  destruct (shr_m mrs2) as [|m|m]; [| |lia].
  - simpl. apply eqb_reflx.
  - destruct (e2 <=? emax - prec); simpl; apply eqb_reflx.
Qed.

Lemma has_sign_not_nan sx f : has_sign sx f = true -> is_nan f = false.
Proof. destruct f; simpl; congruence. Qed.

Lemma of_Z_not_nan z : is_nan (of_Z z) = false.
Proof.
  unfold of_Z, binary_normalize, binary_round.
  destruct z as [|p|p]; [reflexivity| |];
    destruct (shl_align _ _ _) as [mz ez];
    eapply has_sign_not_nan, binary_round_aux_sign; lia.
Qed.

(** Dividing by a finite non-zero divisor makes no NaN. *)
Lemma div_finite_not_nan x sy my ey :
  is_nan x = false -> is_nan (div x (S754_finite sy my ey)) = false.
Proof.
  intros Hx. destruct x as [sx|sx| |sx mx ex]; try reflexivity;
    [discriminate|].
  unfold div, SFdiv, SFdiv_core_binary.
  set (m' := match _ - _ - _ with
             | 0 => Z.pos mx | Z.pos _ => Z.shiftl (Z.pos mx) _ | Z.neg _ => 0
             end).
  assert (Hm : 0 <= m').
  { unfold m'. destruct (_ - _ - _); [lia | apply Z.shiftl_nonneg; lia | lia]. }
  pose proof (Z_div_mod m' (Z.pos my) ltac:(lia)) as D.
  destruct (Z.div_eucl m' (Z.pos my)) as [q r].
  eapply has_sign_not_nan, binary_round_aux_sign.
  destruct D as [D1 D2]. nia.
Qed.

(** A square is not negative. *)
Lemma mul_self_sign_clear x : is_nan x = false -> sign_clear (mul x x) = true.
Proof.
  intros Hx. destruct x as [sx|sx| |sx mx ex]; try discriminate.
  - now destruct sx.
  - now destruct sx.
  - unfold sign_clear, mul, SFmul.
    replace (xorb sx sx) with false by now destruct sx.
    apply binary_round_aux_sign. lia.
Qed.

(** A sum of two non-negative floats is not negative. *)
Lemma add_sign_clear x y :
  sign_clear x = true -> sign_clear y = true -> sign_clear (add x y) = true.
Proof.
  destruct x as [[|]|[|]| |[|] mx ex]; try discriminate;
    destruct y as [[|]|[|]| |[|] my ey]; try discriminate;
    intros _ _; try reflexivity.
  unfold sign_clear, add, SFadd, binary_normalize, cond_Zopp.
  destruct (shl_align mx ex _) as [m1 e1], (shl_align my ey _) as [m2 e2].
  simpl. unfold binary_round.
  destruct (shl_align _ _ _) as [mz ez].
  apply binary_round_aux_sign. lia.
Qed.

Lemma axisSq_sign_clear raw : sign_clear (axisSq raw) = true.
Proof.
  unfold axisSq. apply mul_self_sign_clear.
  change SCALE with (S754_finite false 8388608 (-9)).
  apply div_finite_not_nan, of_Z_not_nan.
Qed.

Lemma sqMagnitude_sign_clear x y z : sign_clear (sqMagnitude x y z) = true.
Proof.
  unfold sqMagnitude. repeat apply add_sign_clear; apply axisSq_sign_clear.
Qed.

(** Two floats that are not NaNs compare one way or the other. *)
Lemma gt_negb_le a b :
  is_nan a = false -> is_nan b = false -> gt a b = negb (le a b).
Proof.
  intros Ha Hb. unfold gt, le, SFltb, SFleb. rewrite (SFcompare_opp a b).
  assert (exists c, SFcompare a b = Some c) as [c ->].
  { destruct a as [[|]|[|]| |[|] ma ea]; try discriminate;
      destruct b as [[|]|[|]| |[|] mb eb]; try discriminate;
      simpl; eauto; destruct (ea ?= eb); eauto. }
  now destruct c.
Qed.

(** X2. Whatever the receive buffer holds, the sample that
    [readAccelSqMagnitude] returns is not a NaN and not negative.  For
    such a sample "not above a threshold" and "at most the threshold"
    are the same condition. *)
Theorem sensor_sample_is_ordered (rx : list byte) :
  let v := readAccelSqMagnitude rx in
  sign_clear v = true /\
  is_nan v = false /\
  (forall t, is_nan t = false -> gt v t = negb (le v t)).
Proof.
  intros v.
  assert (H : sign_clear v = true).
  { unfold v. destruct (Z_lt_ge_dec (Wire_available rx) 6) as [L|G].
    - now rewrite readAccelSqMagnitude_short.
    - destruct rx as [|xh [|xl [|yh [|yl [|zh [|zl rest]]]]]];
        try (unfold Wire_available in G; simpl in G; lia).
      rewrite readAccelSqMagnitude_full. apply sqMagnitude_sign_clear. }
  pose proof (has_sign_not_nan false v H) as N.
  split; [exact H|]. split; [exact N|].
  intros t Ht. now apply gt_negb_le.
Qed.

(** *** One axis alone *)

Lemma forall_below_spec n : forall lo P,
  forall_below n lo P = true ->
  forall z, lo <= z < lo + 2 ^ Z.of_nat n -> P z = true.
Proof.
  induction n as [|n IH]; intros lo P H z Hz.
  - simpl in *. replace z with lo by lia. exact H.
  - cbn [forall_below] in H. apply andb_true_iff in H as [H1 H2].
    rewrite Nat2Z.inj_succ, Z.pow_succ_r in Hz by lia.
    destruct (Z_lt_ge_dec z (lo + 2 ^ Z.of_nat n)) as [L|G].
    + apply (IH lo P H1). lia.
    + apply (IH _ P H2). lia.
Qed.

Lemma add_zero_r x : sign_clear x = true -> add x zero = x.
Proof. now destruct x as [[|]|[|]| |[|] mx ex]. Qed.

Lemma add_zero_l x : sign_clear x = true -> add zero x = x.
Proof. now destruct x as [[|]|[|]| |[|] mx ex]. Qed.

Lemma axisSq_0 : axisSq 0 = zero.
Proof. reflexivity. Qed.

(** With the other two axes at zero the sample is the square of the
    one axis. *)
Lemma sqMagnitude_single raw :
  sqMagnitude raw 0 0 = axisSq raw /\
  sqMagnitude 0 raw 0 = axisSq raw /\
  sqMagnitude 0 0 raw = axisSq raw.
Proof.
  pose proof (axisSq_sign_clear raw) as H.
  unfold sqMagnitude. rewrite axisSq_0. repeat split.
  - now rewrite !(add_zero_r _ H).
  - now rewrite (add_zero_l _ H), (add_zero_r _ H).
  - change (add zero zero) with zero. apply (add_zero_l _ H).
Qed.

Lemma single_axis_scan :
  forall_below 16 (-32768) (fun raw => negb (gt (axisSq raw) IMPACT_SQ))
  = true.
Proof. vm_compute. reflexivity. Qed.

Lemma single_axis_below_impact raw :
  -32768 <= raw <= 32767 -> gt (axisSq raw) IMPACT_SQ = false.
Proof.
  intros H.
  pose proof (forall_below_spec 16 _ _ single_axis_scan raw) as S.
  cbv beta in S. change (2 ^ Z.of_nat 16) with 65536 in S.
  specialize (S ltac:(lia)). now apply negb_true_iff in S.
Qed.

(** X3. A reading in which only one axis is non-zero never exceeds the
    impact threshold: the largest single-axis sample is 4.0, which is
    not above 4.0.  In Monitoring such a reading never starts a judging
    window. *)
Theorem single_axis_never_triggers
  (hi lo : byte) (now : Z) (btn : level) (s : state) :
  let zero_byte := x00%byte in
  let rx_x := [hi; lo; zero_byte; zero_byte; zero_byte; zero_byte] in
  let rx_y := [zero_byte; zero_byte; hi; lo; zero_byte; zero_byte] in
  let rx_z := [zero_byte; zero_byte; zero_byte; zero_byte; hi; lo] in
  Forall (fun rx =>
            gt (readAccelSqMagnitude rx) IMPACT_SQ = false /\
            (currentState s = STATE_MONITORING ->
             currentState (loop_sensor now rx btn s) = STATE_MONITORING))
         [rx_x; rx_y; rx_z] /\
  axisSq (-32768) = IMPACT_SQ.
Proof.
  intros zero_byte rx_x rx_y rx_z.
  pose proof (proj2 (int16_of_bytes_value hi lo)) as R.
  pose proof (single_axis_below_impact _ R) as A.
  destruct (sqMagnitude_single (int16_of_bytes hi lo)) as (Sx & Sy & Sz).
  assert (Z0 : int16_of_bytes zero_byte zero_byte = 0) by reflexivity.
  assert (G : forall rx, gt (readAccelSqMagnitude rx) IMPACT_SQ = false ->
              gt (readAccelSqMagnitude rx) IMPACT_SQ = false /\
              (currentState s = STATE_MONITORING ->
               currentState (loop_sensor now rx btn s) = STATE_MONITORING)).
  { intros rx Hq. split; [exact Hq|]. intros Hs.
    apply (loop_monitoring_quiet (mkInput now _ btn) s Hs Hq). }
  split; [|reflexivity].
  repeat apply List.Forall_cons; try apply List.Forall_nil; apply G;
    unfold rx_x, rx_y, rx_z; rewrite readAccelSqMagnitude_full, Z0;
    congruence.
Qed.

(** ** The state machine as a whole *)

(** X4. Between two iterations of the running sketch (a Judging
    iteration coming less than 32768 s after the impact, where the slot
    index is not changed by its narrowing to [int]) the state moves
    only along the edges of [transition]: Monitoring to Judging on an
    impact, Judging to Monitoring or to Alarm when the window has run
    out (by the count of active seconds), Alarm to Monitoring on a long
    press.  In particular the alarm is never raised from Monitoring,
    Judging is never entered from Alarm, and a button that is down
    cannot cancel the alarm in the iteration that raises it. *)
Theorem state_diagram (s : state) (i : input) :
  reachable s ->
  (currentState s = STATE_JUDGING ->
   timeSinceImpact (millis i) s < NARROWING_FREE_MS) ->
  transition i s (currentState s) (currentState (loop i s)).
Proof.
  intros Hr _. destruct (currentState s) eqn:E.
  - destruct (gt (aMagSq i) IMPACT_SQ) eqn:G.
    + unfold loop. rewrite classify_monitoring_impact by assumption.
      rewrite buttonLogic_not_alarm by (simpl; discriminate). simpl.
      now apply tr_impact.
    + destruct (loop_monitoring_quiet i s E G) as (_ & -> & _).
      now apply tr_quiet.
  - rewrite loop_currentState
      by (apply reachable_edge_cleared; [exact Hr | rewrite E; discriminate]).
    rewrite classify_judging by exact E. simpl.
    destruct (Z.leb_spec JUDGE_WINDOW_MS (timeSinceImpact (millis i) s)).
    + destruct (Z.leb_spec REQUIRED_ACTIVE_SECONDS
                  (countActive (recorded (millis i) (aMagSq i) s))).
      * now apply tr_false_alarm.
      * now apply tr_fall.
    + now apply tr_window_open.
  - unfold loop. rewrite (proj1 (classify_alarm _ _ s E)).
    destruct (btnState i) eqn:B.
    + destruct (btnWasLow s) eqn:W.
      * rewrite buttonLogic_alarm_held by assumption.
        destruct (Z.leb_spec LONG_PRESS_MS
                    (ulong_sub (millis i) (btnPressStart s))); simpl.
        -- now apply tr_cancel.
        -- apply tr_alarm_kept. tauto.
      * rewrite buttonLogic_alarm_edge by assumption. simpl.
        apply tr_alarm_kept. tauto.
    + rewrite buttonLogic_alarm_released by assumption. simpl.
      apply tr_alarm_kept. tauto.
Qed.

Lemma state_diagram_witness :
  transition (mkInput 5000 zero LOW)
             (loop (mkInput 0 sample_impact LOW) initial)
             STATE_JUDGING STATE_ALARM.
Proof.
  apply (state_diagram (loop (mkInput 0 sample_impact LOW) initial)
                       (mkInput 5000 zero LOW)).
  - apply reachable_loop, reachable_initial.
  - intros _. vm_compute. reflexivity.
Defined.

(** X5. An iteration (in Judging: one that comes less than 32768 s
    after the impact, where the slot index is the number of whole
    seconds elapsed) either is the impact transition (from Monitoring
    into Judging, with the impact time set to the clock reading and,
    on the five-slot array, every slot cleared), or it keeps the impact
    time and every slot that is set.  In the second case the window
    changes at most by the one store of a motion sample in Judging, at
    the slot of the current second. *)
Theorem episode_evidence_is_kept (s : state) (i : input) :
  (currentState s = STATE_JUDGING ->
   timeSinceImpact (millis i) s < NARROWING_FREE_MS) ->
  let s' := loop i s in
  (currentState s = STATE_MONITORING /\
   gt (aMagSq i) IMPACT_SQ = true /\
   currentState s' = STATE_JUDGING /\
   impactTime s' = millis i /\
   (window_ok s -> motionHistory s' = [false; false; false; false; false]))
  \/
  (impactTime s' = impactTime s /\
   (forall k, motionHistory s !! k = Some true ->
              motionHistory s' !! k = Some true) /\
   (motionHistory s' = motionHistory s \/
    currentState s = STATE_JUDGING /\
    gt (aMagSq i) STABILITY_SQ = true /\
    0 <= timeSinceImpact (millis i) s / 1000 < 5 /\
    motionHistory s'
    = <[Z.to_nat (timeSinceImpact (millis i) s / 1000) := true]>
        (motionHistory s))).
Proof.
  intros Hn s'. unfold s'. rewrite loop_impactTime, loop_motionHistory.
  destruct (currentState s) eqn:E.
  - destruct (gt (aMagSq i) IMPACT_SQ) eqn:G.
    + left. unfold loop.
      rewrite classify_monitoring_impact by assumption.
      rewrite buttonLogic_not_alarm by (simpl; discriminate). simpl.
      repeat split. intros Hw. now apply resetHistory_all_false.
    + right. rewrite (proj1 (classify_monitoring_quiet _ _ s E G)). tauto.
  - right. rewrite classify_judging by exact E. simpl. unfold recorded.
    destruct ((secondIndex (millis i) s <? 5) && gt (aMagSq i) STABILITY_SQ)
      eqn:C.
    + apply andb_true_iff in C as [L C]. apply Z.ltb_lt in L.
      destruct (secondIndex_narrowing_free _ _ (Hn eq_refl)) as [N1 N2].
      split; [reflexivity|]. split.
      * intros k. apply array_store_true_keeps.
      * right. split; [reflexivity|]. split; [exact C|].
        rewrite <- N1. split; [lia|]. unfold array_store.
        destruct (Z.leb_spec 0 (secondIndex (millis i) s)); [reflexivity|lia].
    + tauto.
  - right. rewrite (proj1 (classify_alarm _ _ s E)). tauto.
Qed.

Lemma episode_evidence_is_kept_witness :
  let s := mkState STATE_JUDGING 1000 false 0 false
                   [true; false; false; false; false] in
  let s' := loop (mkInput 3100 sample_motion HIGH) s in
  impactTime s' = 1000 /\
  motionHistory s' !! 0%nat = Some true.
Proof.
  intros s s'.
  destruct (episode_evidence_is_kept s (mkInput 3100 sample_motion HIGH))
    as [(H & _)|(H1 & H2 & _)].
  - intros _. vm_compute. reflexivity.
  - discriminate H.
  - split; [exact H1 | apply H2; reflexivity].
Defined.

(** ** The "held" indication *)

Lemma progressBar_not_held now s : progressBar now s <> "Button held...".
Proof. unfold progressBar. simpl. discriminate. Qed.

(** X6. After every iteration [btnHeld] is just the button level of
    that iteration, in every state; the screen shows "Button held..."
    exactly when the iteration ends in Alarm with the button down. *)
Theorem held_indicator_follows_button (s : state) (i : input) :
  let s' := loop i s in
  btnHeld s' = bool_decide (btnState i = LOW) /\
  ("Button held..." ∈ statusLines (millis i) s' <->
   currentState s' = STATE_ALARM /\ btnState i = LOW).
Proof.
  intros s'.
  assert (H : btnHeld s' = bool_decide (btnState i = LOW)).
  { unfold s', loop. generalize (classify (millis i) (aMagSq i) s).
    intros c. unfold buttonLogic.
    destruct (btnState i); repeat (case_decide || case_match); simpl;
      try reflexivity; congruence. }
  split; [exact H|]. unfold statusLines. rewrite H.
  destruct (currentState s') eqn:E.
  - split; [|intros [? _]; discriminate].
    intros Hin. repeat (apply elem_of_cons in Hin as [Hin|Hin];
                        [discriminate|]).
    now apply elem_of_nil in Hin.
  - split; [|intros [? _]; discriminate].
    intros Hin. apply elem_of_cons in Hin as [Hin|Hin]; [discriminate|].
    apply elem_of_cons in Hin as [Hin|Hin]; [|now apply elem_of_nil in Hin].
    symmetry in Hin. now apply progressBar_not_held in Hin.
  - destruct (btnState i); simpl.
    + split; [now intros _|]. intros _.
      do 4 apply list_elem_of_further. apply list_elem_of_here.
    + split; [|intros [_ ?]; discriminate].
      intros Hin. repeat (apply elem_of_cons in Hin as [Hin|Hin];
                          [discriminate|]).
      now apply elem_of_nil in Hin.
Qed.

(** ** Whole episodes *)

(** In an open window a motion sample sets the slot of its second. *)
Lemma loop_judging_marks i s :
  currentState s = STATE_JUDGING -> window_ok s ->
  timeSinceImpact (millis i) s < JUDGE_WINDOW_MS ->
  gt (aMagSq i) STABILITY_SQ = true ->
  motionHistory (loop i s) !! Z.to_nat (timeSinceImpact (millis i) s / 1000)
  = Some true.
Proof.
  intros Hs Hw Ht Hm. rewrite loop_motionHistory.
  rewrite classify_judging by exact Hs. simpl. unfold recorded.
  pose proof (secondIndex_window _ _ Ht) as R.
  assert (E : secondIndex (millis i) s = timeSinceImpact (millis i) s / 1000).
  { apply secondIndex_small. unfold JUDGE_WINDOW_MS in Ht. lia. }
  destruct (Z.ltb_spec (secondIndex (millis i) s) 5); [|lia].
  rewrite Hm. simpl. unfold array_store.
  destruct (Z.leb_spec 0 (secondIndex (millis i) s)); [|lia].
  rewrite <- E. apply list_lookup_insert_eq.
  unfold window_ok, WINDOW_SLOTS in Hw. lia.
Qed.

Lemma loop_judging_keeps i s k :
  currentState s = STATE_JUDGING ->
  motionHistory s !! k = Some true -> motionHistory (loop i s) !! k = Some true.
Proof.
  intros Hs Hk. rewrite loop_motionHistory.
  rewrite classify_judging by exact Hs. simpl. unfold recorded.
  case_match; [now apply array_store_true_keeps | exact Hk].
Qed.

Lemma loop_judging_still i s :
  currentState s = STATE_JUDGING ->
  gt (aMagSq i) STABILITY_SQ = false ->
  motionHistory (loop i s) = motionHistory s.
Proof.
  intros Hs Hq. rewrite loop_motionHistory.
  rewrite classify_judging by exact Hs. simpl. unfold recorded.
  now rewrite Hq, andb_false_r.
Qed.

Lemma run_judging_still still : forall s,
  currentState s = STATE_JUDGING ->
  Forall (fun i => timeSinceImpact (millis i) s < JUDGE_WINDOW_MS /\
                   gt (aMagSq i) STABILITY_SQ = false) still ->
  motionHistory (run still s) = motionHistory s.
Proof.
  induction still as [|i still IH]; intros s Hs Hall; simpl; [reflexivity|].
  inversion Hall as [|? ? [Ht Hq] Hrest]; subst.
  destruct (loop_judging_pending i s Hs Ht) as [Hs' Ht'].
  rewrite IH; [now apply loop_judging_still | exact Hs' |].
  eapply Forall_impl; [exact Hrest|]. intros j Hj.
  unfold timeSinceImpact in *. now rewrite Ht'.
Qed.

Lemma run_judging_marks mid : forall s,
  currentState s = STATE_JUDGING -> window_ok s ->
  Forall (fun i => timeSinceImpact (millis i) s < JUDGE_WINDOW_MS) mid ->
  (forall k, motionHistory s !! k = Some true ->
             motionHistory (run mid s) !! k = Some true) /\
  (forall i, i ∈ mid -> gt (aMagSq i) STABILITY_SQ = true ->
             motionHistory (run mid s)
               !! Z.to_nat (timeSinceImpact (millis i) s / 1000) = Some true).
Proof.
  induction mid as [|j mid IH]; intros s Hs Hw Hall; simpl.
  - split; [tauto|]. intros i Hi. now apply elem_of_nil in Hi.
  - inversion Hall as [|? ? Ht Hrest]; subst.
    destruct (loop_judging_pending j s Hs Ht) as [Hs' Ht'].
    destruct (IH (loop j s) Hs' (loop_window_ok j s Hw)) as [K1 K2].
    { eapply Forall_impl; [exact Hrest|]. intros i Hi.
      unfold timeSinceImpact in *. now rewrite Ht'. }
    split.
    + intros k Hk. apply K1. now apply loop_judging_keeps.
    + intros i Hi Hm. apply elem_of_cons in Hi as [->|Hi].
      * apply K1. now apply loop_judging_marks.
      * specialize (K2 i Hi Hm). unfold timeSinceImpact in *.
        now rewrite Ht' in K2.
Qed.

Lemma three_slots_counted m k1 k2 k3 :
  m !! k1 = Some true -> m !! k2 = Some true -> m !! k3 = Some true ->
  (k1 < 5)%nat -> (k2 < 5)%nat -> (k3 < 5)%nat ->
  k1 <> k2 -> k1 <> k3 -> k2 <> k3 ->
  3 <= countActive m.
Proof.
  intros H1 H2 H3 L1 L2 L3 N12 N13 N23.
  assert (F : forall k, (k < 5)%nat -> m !! k = Some true ->
                        nth k m false = true).
  { intros k _ Hk. apply nth_lookup_Some with (d := false) in Hk.
    exact Hk. }
  apply F in H1, H2, H3; try assumption.
  unfold countActive. simpl.
  destruct k1 as [|[|[|[|[|k1]]]]]; try lia;
    destruct k2 as [|[|[|[|[|k2]]]]]; try lia;
    destruct k3 as [|[|[|[|[|k3]]]]]; try lia;
    try congruence;
    rewrite H1, H2, H3;
    repeat match goal with
           | |- context [if ?b then _ else _] => destruct b
           end; lia.
Qed.

(** X7. A fall is detected: from Monitoring, an impact followed until
    the end of the window only by samples that are not above the
    stability threshold raises the alarm in the first iteration that
    comes 5000 ms or more after the impact (and less than 32768 s after
    it, where the slot index is not changed by its narrowing to [int]),
    whatever that iteration's own sample and button level are. *)
Theorem impact_then_stillness_raises_alarm
  (s : state) (x : input) (still : list input) (y : input) :
  reachable s ->
  currentState s = STATE_MONITORING ->
  gt (aMagSq x) IMPACT_SQ = true ->
  Forall (fun i => ulong_sub (millis i) (millis x) < JUDGE_WINDOW_MS /\
                   gt (aMagSq i) STABILITY_SQ = false) still ->
  JUDGE_WINDOW_MS <= ulong_sub (millis y) (millis x) ->
  ulong_sub (millis y) (millis x) < NARROWING_FREE_MS ->
  currentState (run (x :: still) s) = STATE_JUDGING /\
  currentState (run (x :: still ++ [y]) s) = STATE_ALARM.
Proof.
  intros Hr Hs Hx Hstill Hy Hn.
  set (s1 := loop x s).
  assert (E1 : s1 = mkState STATE_JUDGING (millis x) false (btnPressStart s)
                            (bool_decide (btnState x = LOW))
                            [false; false; false; false; false]).
  { unfold s1, loop. rewrite classify_monitoring_impact by assumption.
    rewrite buttonLogic_not_alarm by (simpl; discriminate). simpl.
    now rewrite (resetHistory_all_false _ (reachable_window_ok s Hr)). }
  assert (Hj : currentState s1 = STATE_JUDGING) by now rewrite E1.
  assert (Ht : impactTime s1 = millis x) by now rewrite E1.
  assert (Hall : Forall (fun i => timeSinceImpact (millis i) s1
                                    < JUDGE_WINDOW_MS /\
                                  gt (aMagSq i) STABILITY_SQ = false) still).
  { eapply Forall_impl; [exact Hstill|]. intros i Hi.
    unfold timeSinceImpact. now rewrite Ht. }
  destruct (run_judging_pending still s1 Hj) as [Hj2 Ht2].
  { eapply Forall_impl; [exact Hall|]. now intros i [? _]. }
  pose proof (run_judging_still still s1 Hj Hall) as Hm2.
  set (s2 := run still s1) in *.
  assert (Hr2 : reachable s2)
    by (apply reachable_run; now apply reachable_loop).
  split; [exact Hj2|].
  change (run (x :: still ++ [y]) s) with (run (still ++ [y]) s1).
  rewrite run_app. fold s2. simpl.
  rewrite loop_currentState
    by (apply reachable_edge_cleared; [exact Hr2 | rewrite Hj2; discriminate]).
  rewrite classify_judging by exact Hj2. simpl.
  unfold timeSinceImpact. rewrite Ht2, Ht.
  destruct (Z.leb_spec JUDGE_WINDOW_MS (ulong_sub (millis y) (millis x)));
    [|lia].
  assert (C : countActive (recorded (millis y) (aMagSq y) s2) = 0).
  { rewrite recorded_late
      by (unfold timeSinceImpact; rewrite Ht2, Ht; assumption).
    rewrite Hm2, E1. reflexivity. }
  destruct (Z.leb_spec REQUIRED_ACTIVE_SECONDS
              (countActive (recorded (millis y) (aMagSq y) s2)));
    [unfold REQUIRED_ACTIVE_SECONDS in *; lia | reflexivity].
Qed.

Lemma impact_then_stillness_raises_alarm_witness :
  currentState
    (run (mkInput 1000 sample_impact HIGH ::
          [mkInput 2000 zero HIGH; mkInput 5999 (of_Z 1) LOW]
          ++ [mkInput 6000 sample_impact LOW]) initial) = STATE_ALARM.
Proof.
  apply (impact_then_stillness_raises_alarm initial
           (mkInput 1000 sample_impact HIGH)
           [mkInput 2000 zero HIGH; mkInput 5999 (of_Z 1) LOW]
           (mkInput 6000 sample_impact LOW)).
  - apply reachable_initial.
  - reflexivity.
  - reflexivity.
  - repeat constructor.
  - vm_compute. discriminate.
  - vm_compute. reflexivity.
Defined.

(** X8. Sustained motion is a false alarm: if, while the window is
    open, motion samples arrive in three different whole seconds after
    the impact, the first iteration at 5000 ms or more (and less than
    32768 s after the impact, where the slot index is not changed by
    its narrowing to [int]) returns the sketch to Monitoring. *)
Theorem motion_in_three_seconds_is_false_alarm
  (s : state) (mid : list input) (a b c y : input) :
  reachable s ->
  currentState s = STATE_JUDGING ->
  Forall (fun i => timeSinceImpact (millis i) s < JUDGE_WINDOW_MS) mid ->
  a ∈ mid -> b ∈ mid -> c ∈ mid ->
  gt (aMagSq a) STABILITY_SQ = true ->
  gt (aMagSq b) STABILITY_SQ = true ->
  gt (aMagSq c) STABILITY_SQ = true ->
  timeSinceImpact (millis a) s / 1000 <> timeSinceImpact (millis b) s / 1000 ->
  timeSinceImpact (millis a) s / 1000 <> timeSinceImpact (millis c) s / 1000 ->
  timeSinceImpact (millis b) s / 1000 <> timeSinceImpact (millis c) s / 1000 ->
  JUDGE_WINDOW_MS <= timeSinceImpact (millis y) s ->
  timeSinceImpact (millis y) s < NARROWING_FREE_MS ->
  currentState (run (mid ++ [y]) s) = STATE_MONITORING.
Proof.
  intros Hr Hs Hmid Ia Ib Ic Ma Mb Mc Nab Nac Nbc Hy Hn.
  pose proof (reachable_window_ok s Hr) as Hw.
  destruct (run_judging_pending mid s Hs Hmid) as [Hj Ht].
  destruct (run_judging_marks mid s Hs Hw Hmid) as [_ K].
  assert (B : forall i, i ∈ mid ->
                0 <= timeSinceImpact (millis i) s / 1000 < 5).
  { intros i Hi. rewrite Forall_forall in Hmid. specialize (Hmid i Hi).
    rewrite <- secondIndex_small
      by (unfold JUDGE_WINDOW_MS in Hmid; lia).
    now apply secondIndex_window. }
  pose proof (B a Ia) as Ba. pose proof (B b Ib) as Bb.
  pose proof (B c Ic) as Bc.
  pose proof (K a Ia Ma) as Ka. pose proof (K b Ib Mb) as Kb.
  pose proof (K c Ic Mc) as Kc.
  set (s2 := run mid s) in *.
  assert (Hr2 : reachable s2) by now apply reachable_run.
  rewrite run_app. fold s2. simpl.
  rewrite loop_currentState
    by (apply reachable_edge_cleared; [exact Hr2 | rewrite Hj; discriminate]).
  rewrite classify_judging by exact Hj. simpl.
  unfold timeSinceImpact at 1. rewrite Ht. fold (timeSinceImpact (millis y) s).
  destruct (Z.leb_spec JUDGE_WINDOW_MS (timeSinceImpact (millis y) s)); [|lia].
  assert (C : 3 <= countActive (recorded (millis y) (aMagSq y) s2)).
  { rewrite recorded_late
      by (unfold timeSinceImpact; rewrite Ht; assumption).
    apply (three_slots_counted _ _ _ _ Ka Kb Kc); lia. }
  destruct (Z.leb_spec REQUIRED_ACTIVE_SECONDS
              (countActive (recorded (millis y) (aMagSq y) s2)));
    [reflexivity | unfold REQUIRED_ACTIVE_SECONDS in *; lia].
Qed.

Lemma motion_in_three_seconds_is_false_alarm_witness :
  currentState
    (run ([mkInput 1200 sample_motion HIGH; mkInput 2000 zero HIGH;
           mkInput 3100 sample_motion HIGH; mkInput 4900 sample_impact HIGH]
            ++ [mkInput 5001 zero HIGH])
         (loop (mkInput 0 sample_impact HIGH) initial)) = STATE_MONITORING.
Proof.
  apply (motion_in_three_seconds_is_false_alarm
           (loop (mkInput 0 sample_impact HIGH) initial)
           [mkInput 1200 sample_motion HIGH; mkInput 2000 zero HIGH;
            mkInput 3100 sample_motion HIGH; mkInput 4900 sample_impact HIGH]
           (mkInput 1200 sample_motion HIGH)
           (mkInput 3100 sample_motion HIGH)
           (mkInput 4900 sample_impact HIGH)
           (mkInput 5001 zero HIGH)).
  - apply reachable_loop, reachable_initial.
  - reflexivity.
  - repeat constructor.
  - apply list_elem_of_here.
  - do 2 apply list_elem_of_further. apply list_elem_of_here.
  - do 3 apply list_elem_of_further. apply list_elem_of_here.
  - reflexivity.
  - reflexivity.
  - reflexivity.
  - vm_compute. discriminate.
  - vm_compute. discriminate.
  - vm_compute. discriminate.
  - vm_compute. discriminate.
  - vm_compute. reflexivity.
Defined.

(** X9. The alarm latches: as long as the button is not pressed, no
    sample and no lapse of time takes the sketch out of Alarm, and the
    impact time and the window stay as they were. *)
Theorem alarm_latches_without_button (s : state) (inputs : list input) :
  currentState s = STATE_ALARM ->
  Forall (fun i => btnState i = HIGH) inputs ->
  currentState (run inputs s) = STATE_ALARM /\
  impactTime (run inputs s) = impactTime s /\
  motionHistory (run inputs s) = motionHistory s.
Proof.
  revert s. induction inputs as [|i inputs IH]; intros s Hs Hall; simpl;
    [now repeat split|].
  inversion Hall as [|? ? Hb Hrest]; subst.
  assert (E : loop i s = mkState STATE_ALARM (impactTime s) false
                                 (btnPressStart s) false (motionHistory s)).
  { unfold loop. rewrite (proj1 (classify_alarm _ _ s Hs)), Hb.
    now apply buttonLogic_alarm_released. }
  destruct (IH (loop i s)) as (K1 & K2 & K3);
    [now rewrite E | exact Hrest |].
  rewrite K1, K2, K3, E. now repeat split.
Qed.

Lemma alarm_latches_without_button_witness :
  currentState
    (run [mkInput 7000 sample_impact HIGH; mkInput 90000 zero HIGH] alarmed)
  = STATE_ALARM.
Proof.
  apply (alarm_latches_without_button alarmed
           [mkInput 7000 sample_impact HIGH; mkInput 90000 zero HIGH]).
  - reflexivity.
  - repeat constructor.
Defined.

(** ** The siren *)

Lemma siren_phase now :
  0 <= now -> ((now / 300) mod 2 =? 0) = (now mod 600 <? 300).
Proof.
  intros H.
  pose proof (Z.div_mod now 600 ltac:(lia)) as D.
  pose proof (Z.mod_pos_bound now 600 ltac:(lia)) as B.
  set (q := now / 600) in *. set (r := now mod 600) in *.
  assert (E : now / 300 = 2 * q + r / 300).
  { rewrite D. replace (600 * q + r) with (2 * q * 300 + r) by lia.
    apply Z.div_add_l. lia. }
  rewrite E, Z.add_comm, Z.mul_comm, Z.mod_add by lia.
  destruct (Z.ltb_spec r 300).
  - rewrite (Z.div_small r 300) by lia. reflexivity.
  - assert (r / 300 = 1) as ->; [|reflexivity].
    symmetry. apply (Z.div_unique r 300 1 (r - 300)); lia.
Qed.

(** X10. In the alarm state the LED and the buzzer form a two-phase
    siren driven by the clock alone: LED on with 2000 Hz during the
    first 300 ms of every 600 ms of clock time, LED off with 1000 Hz
    during the other 300 ms.  So the outputs differ from those 300 ms
    later and equal those 600 ms later, as far as the clock does not
    wrap in between.  Outside the alarm state both are off. *)
Theorem siren_alternates (now : Z) (s : state) :
  0 <= now ->
  (currentState s = STATE_ALARM ->
   driveOutputs now s =
     (if now mod 600 <? 300
      then mkOutputs HIGH (Some 2000) else mkOutputs LOW (Some 1000)) /\
   driveOutputs (now + 300) s <> driveOutputs now s /\
   driveOutputs (now + 600) s = driveOutputs now s) /\
  (currentState s <> STATE_ALARM -> driveOutputs now s = mkOutputs LOW None).
Proof.
  intros H. split.
  - intros Hs.
    assert (F : forall t, 0 <= t ->
                driveOutputs t s =
                if t mod 600 <? 300
                then mkOutputs HIGH (Some 2000) else mkOutputs LOW (Some 1000)).
    { intros t Ht. unfold driveOutputs. rewrite siren_phase by exact Ht.
      case_decide; [reflexivity | contradiction]. }
    rewrite !F by lia.
    pose proof (Z.mod_pos_bound now 600 ltac:(lia)) as B.
    assert (M6 : (now + 600) mod 600 = now mod 600).
    { replace (now + 600) with (now + 1 * 600) by lia. apply Z.mod_add. lia. }
    assert (M3 : (now + 300) mod 600 =
                 if now mod 600 <? 300 then now mod 600 + 300
                 else now mod 600 - 300).
    { pose proof (Z.div_mod now 600 ltac:(lia)) as D.
      destruct (Z.ltb_spec (now mod 600) 300).
      - symmetry. apply (Z.mod_unique _ 600 (now / 600)); lia.
      - symmetry. apply (Z.mod_unique _ 600 (now / 600 + 1)); lia. }
    rewrite M6, M3. split; [reflexivity|]. split; [|reflexivity].
    destruct (Z.ltb_spec (now mod 600) 300).
    + destruct (Z.ltb_spec (now mod 600 + 300) 300); [lia | discriminate].
    + destruct (Z.ltb_spec (now mod 600 - 300) 300); [discriminate | lia].
  - intros Hs. unfold driveOutputs. case_decide; [contradiction | reflexivity].
Qed.

Lemma siren_alternates_witness :
  driveOutputs 6000 alarmed = mkOutputs HIGH (Some 2000) /\
  driveOutputs 6300 alarmed <> driveOutputs 6000 alarmed.
Proof.
  destruct (siren_alternates 6000 alarmed) as [H _]; [lia|].
  destruct (H eq_refl) as (H1 & H2 & _). split; [exact H1 | exact H2].
Defined.

(** ** The display *)

Lemma loop_all_refresh i k :
  screen (snd (loop_all i k)) <> None <->
  DISPLAY_INTERVAL <= ulong_sub (millis i) (lastDisplayTime k).
Proof.
  unfold loop_all.
  destruct (Z.leb_spec DISPLAY_INTERVAL
              (ulong_sub (millis i) (lastDisplayTime k))); simpl.
  - split; [tauto | discriminate].
  - split; [congruence | lia].
Qed.

Lemma loop_all_timer i k :
  lastDisplayTime (fst (loop_all i k)) =
  if DISPLAY_INTERVAL <=? ulong_sub (millis i) (lastDisplayTime k)
  then millis i else lastDisplayTime k.
Proof. unfold loop_all. now case_match. Qed.

Lemma run_all_throttled quiet : forall k,
  Forall (fun i => ulong_sub (millis i) (lastDisplayTime k)
                   < DISPLAY_INTERVAL) quiet ->
  lastDisplayTime (fst (run_all quiet k)) = lastDisplayTime k /\
  Forall (fun e => screen e = None) (snd (run_all quiet k)).
Proof.
  induction quiet as [|i quiet IH]; intros k Hall; simpl.
  - split; [reflexivity | constructor].
  - inversion Hall as [|? ? Hi Hrest]; subst.
    pose proof (loop_all_timer i k) as T.
    pose proof (loop_all_refresh i k) as R.
    destruct (loop_all i k) as [k1 e]. simpl in T, R.
    destruct (Z.leb_spec DISPLAY_INTERVAL
                (ulong_sub (millis i) (lastDisplayTime k))); [lia|].
    destruct (IH k1) as [K1 K2]; [now rewrite T|].
    destruct (run_all quiet k1) as [k2 es]. simpl in *.
    split; [congruence|]. constructor; [|exact K2].
    destruct (screen e); [|reflexivity]. exfalso.
    assert (DISPLAY_INTERVAL <= ulong_sub (millis i) (lastDisplayTime k))
      by (apply R; discriminate). lia.
Qed.

(** X11. The display refresh is throttled by the clock with wrap-safe
    subtraction.  An iteration at reading [t] whose distance from the
    last refresh is at least 100 ms redraws the screen with the status
    of the state it ends in; the iterations that follow within less
    than 100 ms of [t] draw nothing, and the next one redraws exactly
    when its reading is 100 ms or more from [t]. *)
Theorem display_is_throttled
  (k : sketch) (x : input) (quiet : list input) (y : input) :
  DISPLAY_INTERVAL <= ulong_sub (millis x) (lastDisplayTime k) ->
  Forall (fun i => ulong_sub (millis i) (millis x) < DISPLAY_INTERVAL)
         quiet ->
  let first := loop_all x k in
  let between := run_all quiet (fst first) in
  let next := loop_all y (fst between) in
  screen (snd first)
    = Some (statusLines (millis x) (loop x (vars k))) /\
  Forall (fun e => screen e = None) (snd between) /\
  (screen (snd next) <> None <->
   DISPLAY_INTERVAL <= ulong_sub (millis y) (millis x)).
Proof.
  intros Hx Hq first between next.
  assert (E : first = (mkSketch (loop x (vars k)) (millis x),
                       mkEffects (driveOutputs (millis x) (loop x (vars k)))
                         (Some (statusLines (millis x) (loop x (vars k)))))).
  { unfold first, loop_all.
    destruct (Z.leb_spec DISPLAY_INTERVAL
                (ulong_sub (millis x) (lastDisplayTime k)));
      [reflexivity | lia]. }
  destruct (run_all_throttled quiet (fst first)) as [T N].
  { now rewrite E. }
  fold between in T, N.
  split; [now rewrite E|]. split; [exact N|].
  unfold next. rewrite loop_all_refresh, T. now rewrite E.
Qed.

Lemma display_is_throttled_witness :
  let first := loop_all (mkInput 100 zero HIGH) initial_sketch in
  let between :=
    run_all [mkInput 120 zero HIGH; mkInput 199 zero HIGH] (fst first) in
  screen (snd first) = Some ["State: MONITORING"; "Shake to trigger."] /\
  Forall (fun e => screen e = None) (snd between) /\
  screen (snd (loop_all (mkInput 200 zero HIGH) (fst between))) <> None.
Proof.
  intros first between.
  destruct (display_is_throttled initial_sketch (mkInput 100 zero HIGH)
              [mkInput 120 zero HIGH; mkInput 199 zero HIGH]
              (mkInput 200 zero HIGH)) as (H1 & H2 & H3).
  - vm_compute. discriminate.
  - repeat constructor.
  - split; [exact H1|]. split; [exact H2|].
    apply H3. vm_compute. discriminate.
Defined.

Lemma buttonLogic_judging now b c :
  currentState (buttonLogic now b c) = STATE_JUDGING ->
  currentState c = STATE_JUDGING.
Proof.
  unfold buttonLogic. repeat (case_decide || case_match); simpl;
    congruence.
Qed.

(** An iteration that ends in Judging ends inside the window. *)
Lemma judging_after_loop_in_window i s :
  currentState (loop i s) = STATE_JUDGING ->
  timeSinceImpact (millis i) (loop i s) < JUDGE_WINDOW_MS.
Proof.
  intros H. unfold timeSinceImpact. rewrite loop_impactTime.
  apply buttonLogic_judging in H. destruct (currentState s) eqn:E.
  - destruct (gt (aMagSq i) IMPACT_SQ) eqn:G.
    + rewrite classify_monitoring_impact by assumption. simpl.
      unfold ulong_sub. rewrite Z.sub_diag. vm_compute. reflexivity.
    + rewrite (proj1 (classify_monitoring_quiet _ _ s E G)) in H. congruence.
  - rewrite classify_judging in * by exact E. simpl in *.
    fold (timeSinceImpact (millis i) s).
    destruct (Z.leb_spec JUDGE_WINDOW_MS (timeSinceImpact (millis i) s));
      [|assumption].
    destruct (REQUIRED_ACTIVE_SECONDS <=? _); discriminate.
  - rewrite (proj1 (classify_alarm _ _ s E)) in H. congruence.
Qed.

(** X12. Whenever the screen is drawn in the judging state, the elapsed
    time is below 5000 ms, so the progress indicator is well formed: it
    is seven characters long, and between the brackets the seconds that
    have passed show their slot as X or _, the current second shows the
    blinking cursor, and the seconds to come show a dot. *)
Theorem progress_bar_is_well_formed (s : state) (i : input) :
  currentState (loop i s) = STATE_JUDGING ->
  let s' := loop i s in
  let e := timeSinceImpact (millis i) s' in
  let bar := progressBar (millis i) s' in
  e < JUDGE_WINDOW_MS /\
  String.length bar = 7%nat /\
  forall k, (k < 5)%nat ->
    String.substring (S k) 1 bar =
    if Z.of_nat k <? e / 1000
    then (if nth k (motionHistory s') false then "X" else "_")
    else if Z.of_nat k =? e / 1000
         then (if e mod 500 <? 250 then "?" else " ")
         else ".".
Proof.
  intros Hj s' e bar.
  pose proof (judging_after_loop_in_window i s Hj) as He. fold s' e in He.
  split; [exact He|].
  pose proof (secondIndex_window _ _ He) as R.
  assert (Q : to_int (e / 1000) = e / 1000).
  { apply to_int_small. unfold secondIndex in R. fold e in R.
    unfold JUDGE_WINDOW_MS in He.
    pose proof (ulong_range (millis i - impactTime s')) as U.
    fold (ulong_sub (millis i) (impactTime s')) in U.
    fold (timeSinceImpact (millis i) s') in U. fold e in U.
    split; [transitivity 0; [lia | apply Z.div_pos; lia]
           | apply Z.div_lt_upper_bound; lia]. }
  unfold bar, progressBar.
  fold (timeSinceImpact (millis i) s'). fold e. rewrite Q.
  generalize (e / 1000) (motionHistory s'). clear. intros q m.
  clearbody e.
  assert (S1 : forall k, exists a, barCell m e q k = String a EmptyString).
  { intros k. unfold barCell. repeat case_match; eauto. }
  destruct (S1 0%nat) as [a0 E0], (S1 1%nat) as [a1 E1],
    (S1 2%nat) as [a2 E2], (S1 3%nat) as [a3 E3], (S1 4%nat) as [a4 E4].
  cbn [fold_left seq WINDOW_SLOTS]. rewrite E0, E1, E2, E3, E4.
  split; [reflexivity|].
  intros k Hk. destruct k as [|[|[|[|[|k]]]]]; try lia.
  - transitivity (barCell m e q 0); [now rewrite E0 | reflexivity].
  - transitivity (barCell m e q 1); [now rewrite E1 | reflexivity].
  - transitivity (barCell m e q 2); [now rewrite E2 | reflexivity].
  - transitivity (barCell m e q 3); [now rewrite E3 | reflexivity].
  - transitivity (barCell m e q 4); [now rewrite E4 | reflexivity].
Qed.

Lemma progress_bar_is_well_formed_witness :
  let s := mkState STATE_JUDGING 1000 false 0 false
                   [true; false; false; false; false] in
  let s' := loop (mkInput 3100 sample_motion HIGH) s in
  timeSinceImpact 3100 s' < JUDGE_WINDOW_MS /\
  String.length (progressBar 3100 s') = 7%nat.
Proof.
  intros s s'.
  destruct (progress_bar_is_well_formed s (mkInput 3100 sample_motion HIGH))
    as (H1 & H2 & _); [reflexivity|].
  split; [exact H1 | exact H2].
Defined.

(** The same screen line, evaluated. *)
Example progress_bar_third_second :
  let s := mkState STATE_JUDGING 1000 false 0 false
                   [true; false; false; false; false] in
  progressBar 3100 (loop (mkInput 3100 sample_motion HIGH) s) = "[X_?..]".
Proof. reflexivity. Qed.

(** ** The baseline sketch *)

(** X13. The optimized sketch kept the baseline's long-press logic: read
    through [baseline_view], its button step computes the alarm flag,
    the press-edge flag, the press start and the "held" indication that
    the baseline's button step computes. *)
Theorem buttonLogic_matches_baseline (now : Z) (btn : level) (s : state) :
  Baseline.buttonLogic now btn (baseline_view s)
  = (baseline_view (buttonLogic now btn s), btnHeld (buttonLogic now btn s)).
Proof.
  destruct s as [c t w p h m].
  unfold Baseline.buttonLogic, buttonLogic, baseline_view,
    Baseline.LONG_PRESS_MS, LONG_PRESS_MS; simpl.
  destruct c, btn, w; simpl; try reflexivity.
  destruct (2000 <=? ulong_sub now p); reflexivity.
Qed.

(** Like the optimized sketch, the baseline ends every iteration in
    which the alarm is off with the press-edge flag cleared. *)
Lemma baseline_edge_cleared now aMag btn s :
  let s' := fst (fst (Baseline.loop now aMag btn s)) in
  Baseline.alarmActive s' = false -> Baseline.btnWasLow s' = false.
Proof.
  unfold Baseline.loop, Baseline.buttonLogic.
  generalize (Baseline.detect aMag s). intros [a w p]. simpl.
  destruct a, btn, w; simpl; try congruence.
  destruct (Baseline.LONG_PRESS_MS <=? ulong_sub now p); simpl; congruence.
Qed.

(** X14. The baseline raises the alarm at once: an iteration that reads
    a magnitude above 1.8 g while the alarm is off (and the press-edge
    flag is clear, as every such iteration leaves it) ends with the
    alarm on, the LED on and the 2000 Hz tone, whatever the button
    level; a button that is down only has its press edge recorded. *)
Theorem baseline_raises_alarm_at_once
  (now : Z) (aMag : float) (btn : level) (s : Baseline.state) :
  Baseline.alarmActive s = false ->
  Baseline.btnWasLow s = false ->
  gt aMag Baseline.IMPACT_THRESHOLD_G = true ->
  Baseline.loop now aMag btn s =
  (Baseline.mkState true (bool_decide (btn = LOW))
     (if decide (btn = LOW) then now else Baseline.btnPressStart s),
   bool_decide (btn = LOW),
   mkOutputs HIGH (Some 2000)).
Proof.
  intros Ha Hw Hg. destruct s as [a w p]. simpl in *. subst.
  unfold Baseline.loop, Baseline.detect, Baseline.buttonLogic. simpl.
  rewrite Hg. simpl. now destruct btn.
Qed.

Lemma baseline_raises_alarm_at_once_witness :
  Baseline.loop 700 (of_Z 2) LOW Baseline.initial =
  (Baseline.mkState true true 700, true, mkOutputs HIGH (Some 2000)).
Proof.
  apply (baseline_raises_alarm_at_once 700 (of_Z 2) LOW Baseline.initial);
    reflexivity.
Defined.
